(** * Read-only SQL gateway (src/app.py): shallow embedding and properties

    The gateway is a FastAPI application with three query endpoints:
    [sqlquery_alchemy] (pooled SQLAlchemy engine), [sqlquery_direct]
    (a fresh psycopg connection per request) and [query_salesforce_data]
    (JSON body, psycopg, not rate limited).

    The database, the driver and the rate limiter are the environment.
    Every driver call the handlers make is an operation of a small
    state-and-exception monad: the state is the trace of calls made so far,
    the answers come from a [World] record.  Handlers are written in that
    monad in the order of the Python statements. *)

From Stdlib Require Import Ascii String DecimalString.
From stdpp Require Import gmap strings list.

Local Open Scope string_scope.
Local Open Scope Z_scope.

(** ** Python strings

    A text is modelled as a [string] holding one character per code point
    below 256.  [isspace] and [lower] are Python's [str.isspace] and
    [str.lower] on that range.  Texts with code points above 255 are not
    among these; the classification of such texts is written over lists of
    code points in [Unicode] below. *)

Module PyText.

Definition isspace (c : ascii) : bool :=
  let n := N_of_ascii c in
  (((9 <=? n) && (n <=? 13)) || ((28 <=? n) && (n <=? 32))
   || (n =? 133) || (n =? 160))%N.

Definition lower_char (c : ascii) : ascii :=
  let n := N_of_ascii c in
  if (((65 <=? n) && (n <=? 90))
      || ((192 <=? n) && (n <=? 222) && negb (n =? 215)))%N
  then ascii_of_N (n + 32) else c.

Fixpoint lower (s : string) : string :=
  match s with
  | EmptyString => EmptyString
  | String c s' => String (lower_char c) (lower s')
  end.

Fixpoint lstrip (s : string) : string :=
  match s with
  | EmptyString => EmptyString
  | String c s' => if isspace c then lstrip s' else s
  end.

Fixpoint rstrip (s : string) : string :=
  match s with
  | EmptyString => EmptyString
  | String c s' =>
      match rstrip s' with
      | EmptyString => if isspace c then EmptyString else String c EmptyString
      | r => String c r
      end
  end.

(** [s.strip()] *)
Definition strip (s : string) : string := rstrip (lstrip s).

(** [s.startswith(p)] *)
Definition startswith (s p : string) : bool := String.prefix p s.

(** [str(n)] for a natural number, as in [f"{len(results)}"] *)
Definition of_nat (n : nat) : string := NilZero.string_of_uint (Nat.to_uint n).

End PyText.

(** The test both branches of every handler share:
    [sqlquery.strip().lower().startswith('select')]. *)
Definition is_select (sqlquery : string) : bool :=
  PyText.startswith (PyText.lower (PyText.strip sqlquery)) "select".

(** ** Values *)

(** A cell of a result row: the kinds of cell that a JSON document holds as
    they are.  The drivers also hand out cells of other Python types (bytes,
    floats, decimals, dates); those are not modelled. *)
Inductive value :=
| VNull
| VBool (b : bool)
| VInt (n : Z)
| VText (s : string).

(** A decoded JSON value, as FastAPI hands it to a [payload: dict] handler. *)
#[local] Set Warnings "-register-all".
Inductive pyval :=
| PyNone
| PyBool (b : bool)
| PyInt (n : Z)
| PyFloat (repr : string)
| PyStr (s : string)
| PyList (items : list pyval)
| PyDict (items : list (string * pyval)).
#[local] Set Warnings "register-all".

Definition type_name (v : pyval) : string :=
  match v with
  | PyNone => "NoneType"
  | PyBool _ => "bool"
  | PyInt _ => "int"
  | PyFloat _ => "float"
  | PyStr _ => "str"
  | PyList _ => "list"
  | PyDict _ => "dict"
  end.

(** [v != secret] where [secret] is a [str]: a [str] is equal to nothing
    but a [str] with the same characters. *)
Definition py_ne_str (v : pyval) (secret : string) : bool :=
  match v with
  | PyStr s => negb (String.eqb s secret)
  | _ => true
  end.

(** ** Python dicts with string keys

    A dict keeps its keys in insertion order and holds each key once:
    assigning to a key already present replaces the value in place. *)

Definition pydict := list (string * value).

Fixpoint dict_set (d : pydict) (k : string) (v : value) : pydict :=
  match d with
  | [] => [(k, v)]
  | (k', v') :: d' =>
      if String.eqb k' k then (k', v) :: d' else (k', v') :: dict_set d' k v
  end.

(** [zip(columns, row)]: stops at the shorter of the two. *)
Fixpoint zip (columns : list string) (row : list value) : list (string * value) :=
  match columns, row with
  | c :: cs, v :: vs => (c, v) :: zip cs vs
  | _, _ => []
  end.

(** [dict(pairs)]: the pairs are assigned left to right. *)
Definition dict_of (pairs : list (string * value)) : pydict :=
  fold_left (fun d kv => dict_set d kv.1 kv.2) pairs [].

Definition keys (d : pydict) : list string := d.*1.

Fixpoint dict_get (d : pydict) (k : string) : option value :=
  match d with
  | [] => None
  | (k', v) :: d' => if String.eqb k' k then Some v else dict_get d' k
  end.

(** ** The database as seen through a driver *)

Inductive backend := Pooled | Direct.

(** What a statement that returns rows leaves on the cursor. *)
Record result_set := ResultSet {
  rs_columns : list string;
  rs_rows : list (list value)
}.

(** Every row of a result set has one cell per column. *)
Definition rectangular (rs : result_set) : Prop :=
  Forall (fun row => length row = length (rs_columns rs)) (rs_rows rs).

(** Exceptions below [Exception] that the handlers tell apart, with the
    text [str(e)] gives. *)
Inductive exn :=
| SQLAlchemyError (msg : string)
| PsycopgError (msg : string)
| OtherException (msg : string).

Definition str (e : exn) : string :=
  match e with
  | SQLAlchemyError m | PsycopgError m | OtherException m => m
  end.

(** What reaches FastAPI from a route. *)
Inductive app_exn :=
| HTTPException (status_code : Z) (detail : string)
| RateLimitExceeded.

Inductive level := DEBUG | INFO | WARNING | ERROR.

(** One entry per call made on the logger, the pool or the driver; [ok]
    tells whether the call returned (true) or raised (false). *)
Inductive event :=
| EvLog (lv : level) (msg : string)
| EvConnect (b : backend) (ok : bool)
| EvSetSession (ok : bool)
| EvBegin (ok : bool)
| EvDirective (sql : string) (ok : bool)
| EvStatement (arg : pyval) (ok : bool)
| EvFetch (ok : bool)
| EvCommit (ok : bool)
| EvRollback
| EvRelease (b : backend).

Definition trace := list event.

(** The answers of the environment during one request.  A [None] in an
    [option exn] means the call returns.  [w_execute] is given the argument of
    [execute] as the handler passes it; a statement that returns no rows
    leaves [None] on the cursor.  [w_new_physical] tells whether the pool has
    to open a new physical connection for this checkout, which fires the
    engine's "connect" event.  Rolling back and releasing a connection
    always complete. *)
Record World := {
  w_connect : backend -> option exn;
  w_new_physical : bool;
  w_set_session : option exn;
  w_begin : backend -> option exn;
  w_directive : backend -> string -> option exn;
  w_execute : backend -> pyval -> exn + option result_set;
  w_fetch : backend -> option exn;
  w_commit : backend -> option exn
}.

(** ** The monad of the handlers

    A computation takes the trace so far and gives the trace it leaves and
    either an exception of type [E] or a value. *)

Definition M (E A : Type) : Type := trace -> trace * (E + A).

Definition ret {E A} (a : A) : M E A := fun t => (t, inr a).

Definition bind {E A B} (m : M E A) (k : A -> M E B) : M E B :=
  fun t =>
    match m t with
    | (t', inl e) => (t', inl e)
    | (t', inr a) => k a t'
    end.

Definition raise {E A} (e : E) : M E A := fun t => (t, inl e).

Definition emit {E} (ev : event) : M E unit := fun t => ((t ++ [ev])%list, inr tt).

(** [try: m  except ... as e: h e], for a handler that names every exception
    [m] can raise. *)
Definition try_except {E E' A} (m : M E A) (h : E -> M E' A) : M E' A :=
  fun t =>
    match m t with
    | (t', inl e) => h e t'
    | (t', inr a) => (t', inr a)
    end.

(** [try: m  finally: f] and the exit of a [with] block that only cleans up. *)
Definition finally {E A} (m : M E A) (f : M E unit) : M E A :=
  fun t =>
    match m t with
    | (t', r) =>
        match f t' with
        | (t'', inl e) => (t'', inl e)
        | (t'', inr _) => (t'', r)
        end
    end.

(** The monad is used through stdpp's [x ← m; k] and [m;; k]. *)
#[global] Instance M_ret {E} : MRet (M E) := fun A => @ret E A.
#[global] Instance M_bind {E} : MBind (M E) := fun A B k m => @bind E A B m k.

Definition run {E A} (m : M E A) : trace * (E + A) := m [].

(** A call that may raise: it is recorded with its outcome. *)
Definition call (ev : bool -> event) (answer : option exn) : M exn unit :=
  match answer with
  | None => emit (ev true)
  | Some e => emit (ev false);; raise e
  end.

Definition log {E} (lv : level) (msg : string) : M E unit := emit (EvLog lv msg).

(** ** Configuration read at import time (lines 27-34, 47-48, 63) *)

Record config := Config {
  DATABASE_URL : string;
  REX_API_KEY : string;
  RATE_LIMIT : string
}.

(** [not v] for the result of [os.getenv]: true for [None] and for [""]. *)
Definition py_not (v : option string) : bool :=
  match v with
  | Some (String _ _) => false
  | _ => true
  end.

(** The checks and settings of lines 27-34, 47-48 and 63.
    [ValueError(msg)] leaves the module unloaded.  The import goes on after
    these lines (lines 38-43 take the URL apart, line 79 creates the engine)
    and can still raise there: [inr cfg] says that these checks passed and
    what they left in the three settings. *)
Definition startup (environ : gmap string string) : M string config :=
  let database_url := environ !! "DATABASE_URL" in
  let rex_api_key := environ !! "REX_API_KEY" in
  if py_not database_url then
    log ERROR "DATABASE_URL environment variable is not set";;
    raise "DATABASE_URL environment variable is required"
  else if py_not rex_api_key then
    log ERROR "REX_API_KEY environment variable is not set";;
    raise "REX_API_KEY environment variable is required"
  else
    let url := default "" database_url in
    let url :=
      if PyText.startswith url "postgresql://"
      then "postgresql+psycopg://"
           ++ String.substring 13 (String.length url - 13) url
      else url in
    let rate_limit := default "100/hour" (environ !! "RATE_LIMIT") in
    log INFO ("Using rate limit: " ++ rate_limit);;
    mret (Config url (default "" rex_api_key) rate_limit).

(** ** Driver calls *)

Definition READ_ONLY : string := "SET TRANSACTION READ ONLY".

(** The listener of the engine's "connect" event (lines 82-89). *)
Definition set_session_readonly (w : World) : M exn unit :=
  try_except
    (call EvSetSession (w_set_session w);;
     log DEBUG "SQLAlchemy DBAPI session set to readonly")
    (fun e =>
       log WARNING ("Failed to set SQLAlchemy session to readonly: " ++ str e)).

(** [engine.connect()]: a checkout from the pool; a new physical connection
    runs the listener before it is handed out. *)
Definition engine_connect (w : World) : M exn unit :=
  call (EvConnect Pooled) (w_connect w Pooled);;
  if w_new_physical w then set_session_readonly w else mret tt.

(** [psycopg.connect(host=..., ...)] *)
Definition psycopg_connect (w : World) : M exn unit :=
  call (EvConnect Direct) (w_connect w Direct).

(** [connection.exec_driver_sql(sql)] and psycopg's [connection.execute(sql)]
    for the gateway's own directive. *)
Definition directive (w : World) (b : backend) (sql : string) : M exn unit :=
  call (EvDirective sql) (w_directive w b sql).

(** [connection.execute(text(q))] and [cursor.execute(q)] for the caller's
    statement. *)
Definition execute (w : World) (b : backend) (arg : pyval)
  : M exn (option result_set) :=
  match w_execute w b arg with
  | inl e => emit (EvStatement arg false);; raise e
  | inr cur => emit (EvStatement arg true);; mret cur
  end.

(** [result.keys()] on a SQLAlchemy result. *)
Definition result_keys (cur : option result_set) : M exn (list string) :=
  match cur with
  | Some rs => mret (rs_columns rs)
  | None =>
      raise (SQLAlchemyError
        "This result object does not return rows. It has been closed automatically.")
  end.

(** [[desc.name for desc in cursor.description]] on a psycopg cursor, whose
    [description] is [None] when the statement returned no rows. *)
Definition description_names (cur : option result_set) : M exn (list string) :=
  match cur with
  | Some rs => mret (rs_columns rs)
  | None => raise (OtherException "'NoneType' object is not iterable")
  end.

(** What reading the rows of a statement that returned none raises; the
    class is what the handlers look at, the text is that of one release of
    the drivers and goes into the answer as it is. *)
Definition no_result (b : backend) : exn :=
  match b with
  | Pooled =>
      SQLAlchemyError
        "This result object does not return rows. It has been closed automatically."
  | Direct => PsycopgError "the last operation didn't produce a result"
  end.

(** [fetchall()] *)
Definition fetchall (w : World) (b : backend) (cur : option result_set)
  : M exn (list (list value)) :=
  match cur with
  | Some rs => call EvFetch (w_fetch w b);; mret (rs_rows rs)
  | None => raise (no_result b)
  end.

(** [with connection.transaction(): body] (psycopg): BEGIN on entry, COMMIT
    when the body leaves normally (a [return] included), ROLLBACK and
    re-raise when it leaves by an exception. *)
Definition transaction {A} (w : World) (body : M exn A) : M exn A :=
  call EvBegin (w_begin w Direct);;
  a ← try_except body (fun e => emit EvRollback;; raise e);
  call EvCommit (w_commit w Direct);;
  mret a.

(** [with <connect> as connection: body]: the connection is released on
    every way out of the body; by then no transaction is open on it. *)
Definition with_connection {A} (b : backend) (body : M exn A) : M exn A :=
  finally body (emit (EvRelease b)).

(** ** Responses *)

Inductive body :=
| BDicts (rows : list pydict)
| BTuples (rows : list (list value))
| BStatusMessage (status message : string)
| BStatusData (status : string) (data : list pydict)
| BDetail (detail : string).

(** [[dict(zip(columns, row)) for row in rows]] *)
Definition normalize (columns : list string) (rows : list (list value))
  : list pydict :=
  (fun row => dict_of (zip columns row)) <$> rows.

(** The JSON text FastAPI sends for a body: a dict becomes an object with
    its keys in order, a list or a tuple becomes an array. *)
#[local] Set Warnings "-register-all".
Inductive json :=
| JNull
| JBool (b : bool)
| JNumber (n : Z)
| JString (s : string)
| JArray (items : list json)
| JObject (fields : list (string * json)).
#[local] Set Warnings "register-all".

Definition json_of_value (v : value) : json :=
  match v with
  | VNull => JNull
  | VBool b => JBool b
  | VInt n => JNumber n
  | VText s => JString s
  end.

Definition json_of_dict (d : pydict) : json :=
  JObject ((λ kv, (kv.1, json_of_value kv.2)) <$> d).

Definition json_of_tuple (row : list value) : json :=
  JArray (json_of_value <$> row).

Definition to_json (b : body) : json :=
  match b with
  | BDicts rows => JArray (json_of_dict <$> rows)
  | BTuples rows => JArray (json_of_tuple <$> rows)
  | BStatusMessage status message =>
      JObject [("status", JString status); ("message", JString message)]
  | BStatusData status data =>
      JObject [("status", JString status);
               ("data", JArray (json_of_dict <$> data))]
  | BDetail detail => JObject [("detail", JString detail)]
  end.

(** ** The three handlers *)

Inductive endpoint := Alchemy | DirectDB | Salesforce.

(** The [except] clauses that close each handler (lines 119-124, 154-159,
    191-192). *)
Definition on_error (ep : endpoint) (e : exn) : M app_exn body :=
  match ep with
  | Alchemy =>
      match e with
      | SQLAlchemyError _ =>
          log ERROR ("SQLAlchemy error: " ++ str e);;
          raise (HTTPException 500 ("Database error: " ++ str e))
      | _ =>
          log ERROR ("Unexpected error in SQLAlchemy endpoint: " ++ str e);;
          raise (HTTPException 500 ("Unexpected error: " ++ str e))
      end
  | DirectDB =>
      match e with
      | PsycopgError _ =>
          log ERROR ("PostgreSQL error: " ++ str e);;
          raise (HTTPException 500 ("Database error: " ++ str e))
      | _ =>
          log ERROR ("Unexpected error in direct connection endpoint: " ++ str e);;
          raise (HTTPException 500 ("Unexpected error: " ++ str e))
      end
  | Salesforce => raise (HTTPException 500 (str e))
  end.

Definition ACK : body := BStatusMessage "success" "Query executed successfully".

(** [sqlquery_alchemy] (lines 93-124). *)
Definition sqlquery_alchemy (cfg : config) (w : World)
    (sqlquery api_key url : string) : M app_exn body :=
  if negb (String.eqb api_key (REX_API_KEY cfg)) then
    raise (HTTPException 401 "Invalid API key")
  else
    log DEBUG ("Received API call to SQLAlchemy endpoint: " ++ url);;
    log DEBUG ("SQL Query: " ++ sqlquery);;
    try_except
      (engine_connect w;;
       with_connection Pooled
         (call EvBegin (w_begin w Pooled);;
          try_except
            (directive w Pooled READ_ONLY;;
             result ← execute w Pooled (PyStr sqlquery);
             if is_select sqlquery then
               columns ← result_keys result;
               rows ← fetchall w Pooled result;
               let results := normalize columns rows in
               log DEBUG ("Query executed successfully via SQLAlchemy, returned "
                          ++ PyText.of_nat (length results) ++ " rows");;
               call EvCommit (w_commit w Pooled);;
               mret (BDicts results)
             else
               call EvCommit (w_commit w Pooled);;
               log DEBUG "Non-SELECT query attempted in read-only transaction";;
               mret ACK)
            (fun e => emit EvRollback;; raise e)))
      (on_error Alchemy).

(** [sqlquery_direct] (lines 128-159). *)
Definition sqlquery_direct (cfg : config) (w : World)
    (sqlquery api_key url : string) : M app_exn body :=
  if negb (String.eqb api_key (REX_API_KEY cfg)) then
    raise (HTTPException 401 "Invalid API key")
  else
    log DEBUG ("Received API call to direct connection endpoint: " ++ url);;
    log DEBUG ("SQL Query: " ++ sqlquery);;
    try_except
      (psycopg_connect w;;
       with_connection Direct
         (transaction w
            (directive w Direct READ_ONLY;;
             cursor ← execute w Direct (PyStr sqlquery);
             if is_select sqlquery then
               results ← fetchall w Direct cursor;
               log DEBUG ("Query executed successfully via direct connection, returned "
                          ++ PyText.of_nat (length results) ++ " rows");;
               mret (BTuples results)
             else
               log DEBUG "Non-SELECT query attempted in read-only transaction";;
               mret ACK)))
      (on_error DirectDB).

(** [query_salesforce_data] (lines 165-192).  [payload.get(k)] is [None] for
    a missing key; [sqlquery.strip()] needs a [str]. *)
Definition query_salesforce_data (cfg : config) (w : World)
    (payload : gmap string pyval) : M app_exn body :=
  let sqlquery := default PyNone (payload !! "sqlquery") in
  let api_key := default PyNone (payload !! "api_key") in
  if py_ne_str api_key (REX_API_KEY cfg) then
    raise (HTTPException 401 "Invalid API key")
  else
    try_except
      (psycopg_connect w;;
       with_connection Direct
         (transaction w
            (directive w Direct READ_ONLY;;
             cursor ← execute w Direct sqlquery;
             match sqlquery with
             | PyStr s =>
                 if is_select s then
                   columns ← description_names cursor;
                   rows ← fetchall w Direct cursor;
                   let data := normalize columns rows in
                   mret (BStatusData "success" data)
                 else
                   mret (BStatusMessage "success" "Non-select executed")
             | v =>
                 raise (OtherException
                   ("'" ++ type_name v ++ "' object has no attribute 'strip'"))
             end)))
      (on_error Salesforce).

(** ** The application: rate limiting and exception handlers *)

Record response := Response {
  status_code : Z;
  content : body
}.

(** The handler registered for [RateLimitExceeded] (lines 71-76). *)
Definition custom_rate_limit_exceeded_handler : response :=
  Response 429
    (BDetail "Rate limit exceeded. Please try again later or contact your administrator.").

(** What FastAPI sends for the outcome of a route: the body a handler
    returned, serialised, with status 200, or the status and detail of the
    exception it raised.  Every body over [value] can be serialised.  A body
    with a cell that cannot (bytes that are not UTF-8, for one) is answered
    500 by FastAPI after the handler has returned; such cells are outside
    [value], and so is that answer. *)
Definition respond (r : app_exn + body) : response :=
  match r with
  | inr b => Response 200 b
  | inl (HTTPException code detail) => Response code (BDetail detail)
  | inl RateLimitExceeded => custom_rate_limit_exceeded_handler
  end.

Inductive route :=
| GET_sqlquery_alchemy (sqlquery api_key : string)
| GET_sqlquery_direct (sqlquery api_key : string)
| POST_querySalesforceData (payload : gmap string pyval).

Record request := Request {
  req_route : route;
  req_url : string;
  req_client : string
}.

Section App.

(** The limiter of slowapi: its store, and the test-and-count it runs for
    a limit expression, a route and a client address. *)
Context {L : Type}.
Variable hit : L -> string -> string -> string -> bool * L.

(** [@limiter.limit(RATE_LIMIT)]: the check runs before the body of the
    route. *)
Definition limit (cfg : config) (name client : string)
    (h : M app_exn body) (l : L) : L * M app_exn body :=
  let '(allowed, l') := hit l (RATE_LIMIT cfg) name client in
  (l', if allowed then h else raise RateLimitExceeded).

Definition dispatch (cfg : config) (w : World) (r : request) (l : L)
  : L * M app_exn body :=
  match req_route r with
  | GET_sqlquery_alchemy q k =>
      limit cfg "sqlquery_alchemy" (req_client r)
        (sqlquery_alchemy cfg w q k (req_url r)) l
  | GET_sqlquery_direct q k =>
      limit cfg "sqlquery_direct" (req_client r)
        (sqlquery_direct cfg w q k (req_url r)) l
  | POST_querySalesforceData payload =>
      (l, query_salesforce_data cfg w payload)
  end.

(** One request: the limiter's store after it, the calls made, the
    response. *)
Definition serve (cfg : config) (w : World) (r : request) (l : L)
  : L * (trace * response) :=
  let '(l', h) := dispatch cfg w r l in
  let '(t, out) := run h in
  (l', (t, respond out)).

(** A sequence of requests, each with the environment it meets. *)
Fixpoint serve_all (cfg : config) (rs : list (World * request)) (l : L)
  : L * list (trace * response) :=
  match rs with
  | [] => (l, [])
  | (w, r) :: rs' =>
      let '(l', o) := serve cfg w r l in
      let '(l'', os) := serve_all cfg rs' l' in
      (l'', o :: os)
  end.

End App.

(** ** Concrete environments *)

(** An environment in which every call returns and every statement leaves
    [cur] on the cursor. *)
Definition answering (cur : option result_set) : World := {|
  w_connect := fun _ => None;
  w_new_physical := true;
  w_set_session := None;
  w_begin := fun _ => None;
  w_directive := fun _ _ => None;
  w_execute := fun _ _ => inr cur;
  w_fetch := fun _ => None;
  w_commit := fun _ => None
|}.

(** An environment in which the caller's statement is refused with [e]. *)
Definition refusing (e : exn) : World := {|
  w_connect := fun _ => None;
  w_new_physical := false;
  w_set_session := None;
  w_begin := fun _ => None;
  w_directive := fun _ _ => None;
  w_execute := fun _ _ => inl e;
  w_fetch := fun _ => None;
  w_commit := fun _ => None
|}.

(** The number a limit expression such as ["100/hour"] starts with; the
    expressions meant are those that start with their number. *)
Fixpoint leading_number (s : string) (acc : nat) : nat :=
  match s with
  | EmptyString => acc
  | String c s' =>
      let n := N_of_ascii c in
      if ((48 <=? n) && (n <=? 57))%N
      then leading_number s' (10 * acc + N.to_nat (n - 48))%nat
      else acc
  end.

(** A limiter within one window: per route and client address it counts
    every request, and lets a request through while the count before it is below
    the number of the limit expression. *)
Definition window_hit
    (l : gmap (string * string) nat) (expr name client : string)
  : bool * gmap (string * string) nat :=
  let n := default 0%nat (l !! (name, client)) in
  (bool_decide (n < leading_number expr 0)%nat, <[(name, client) := S n]> l).

Definition cfg0 : config :=
  Config "postgresql+psycopg://u:p@db:5432/app" "s3cret" "100/hour".
Definition cfg1 : config :=
  Config "postgresql+psycopg://u:p@db:5432/app" "s3cret" "1/hour".

Definition one_x : result_set := ResultSet ["x"] [[VInt 1]].
Definition x_x : result_set := ResultSet ["x"; "x"] [[VInt 1; VInt 2]].

Definition delete_refused : exn :=
  PsycopgError "cannot execute DELETE in a read-only transaction".

Definition select_one : string := "select 1 as x".
Definition select_twice : string := "select 1 as x, 2 as x".

Definition wrong_key_request : request :=
  Request (GET_sqlquery_alchemy select_one "wrong") "/sqlquery_alchemy/" "10.0.0.7".

Definition good_payload : gmap string pyval :=
  <["sqlquery" := PyStr select_one]> {["api_key" := PyStr "s3cret"]}.

Definition environ0 : gmap string string :=
  <["DATABASE_URL" := "postgresql://u:p@db:5432/app"]> {["REX_API_KEY" := "s3cret"]}.

(** ** Observations on traces and outcomes *)

(** The two routes that take the statement and the key from the query
    string, by the backend they use. *)
Definition sqlquery (b : backend)
  : config -> World -> string -> string -> string -> M app_exn body :=
  match b with
  | Pooled => sqlquery_alchemy
  | Direct => sqlquery_direct
  end.

Definition endpoint_of (b : backend) : endpoint :=
  match b with
  | Pooled => Alchemy
  | Direct => DirectDB
  end.

Definition is_connect (ev : event) : bool :=
  match ev with EvConnect _ _ => true | _ => false end.
Definition is_statement (ev : event) : bool :=
  match ev with EvStatement _ _ => true | _ => false end.
Definition is_commit (ev : event) : bool :=
  match ev with EvCommit _ => true | _ => false end.
Definition is_rollback (ev : event) : bool :=
  match ev with EvRollback => true | _ => false end.

Definition count (p : event -> bool) (t : trace) : nat :=
  length (List.filter p t).

(** Where a connection stands with respect to its transaction. *)
Inductive tx := NoTx | InTx | InReadOnlyTx.

(** A monitor for the discipline "the caller's statement is sent only inside
    a transaction that was begun and then marked read-only".  [None] is a
    violation. *)
Definition tx_step (s : tx) (ev : event) : option tx :=
  match ev with
  | EvBegin true => Some InTx
  | EvBegin false | EvCommit _ | EvRollback | EvRelease _ => Some NoTx
  | EvDirective sql true =>
      match s with
      | NoTx => Some NoTx
      | _ => Some (if String.eqb sql READ_ONLY then InReadOnlyTx else s)
      end
  | EvStatement _ _ =>
      match s with
      | InReadOnlyTx => Some InReadOnlyTx
      | _ => None
      end
  | _ => Some s
  end.

Fixpoint tx_run (s : tx) (t : trace) : option tx :=
  match t with
  | [] => Some s
  | ev :: t' =>
      match tx_step s ev with
      | Some s' => tx_run s' t'
      | None => None
      end
  end.

(** Calls that open or close a transaction. *)
Definition tx_boundary (ev : event) : bool :=
  match ev with
  | EvBegin _ | EvCommit _ | EvRollback | EvRelease _ => true
  | _ => false
  end.

(** Every call that sends the caller's statement comes after a BEGIN that
    returned and, after that, a [SET TRANSACTION READ ONLY] that returned,
    with no transaction boundary in between. *)
Definition statements_in_read_only_tx (t : trace) : Prop :=
  ∀ pre arg ok post,
    t = (pre ++ EvStatement arg ok :: post)%list →
    ∃ p1 p2 p3,
      pre = (p1 ++ EvBegin true :: p2 ++ EvDirective READ_ONLY true :: p3)%list
      ∧ Forall (λ ev, tx_boundary ev = false) (p2 ++ p3)%list.

(** The invariant the monitor keeps about the calls made so far. *)
Definition tx_inv (s : tx) (pre : trace) : Prop :=
  match s with
  | NoTx => True
  | InTx =>
      ∃ p1 p2, pre = (p1 ++ EvBegin true :: p2)%list
               ∧ Forall (λ ev, tx_boundary ev = false) p2
  | InReadOnlyTx =>
      ∃ p1 p2 p3,
        pre = (p1 ++ EvBegin true :: p2 ++ EvDirective READ_ONLY true :: p3)%list
        ∧ Forall (λ ev, tx_boundary ev = false) (p2 ++ p3)%list
  end.

(** Every call the environment is asked for returns, and the caller's
    statement leaves [cur] on the cursor. *)
Definition accepts (w : World) (b : backend) (arg : pyval)
    (cur : option result_set) : Prop :=
  w_connect w b = None ∧ w_begin w b = None
  ∧ w_directive w b READ_ONLY = None
  ∧ w_execute w b arg = inr cur
  ∧ w_fetch w b = None ∧ w_commit w b = None.

(** How the execution or the fetch of the caller's statement can raise, once
    the transaction is read-only. *)
Inductive fails (w : World) (b : backend) (q : string) : exn -> Prop :=
| execute_raises e :
    w_execute w b (PyStr q) = inl e → fails w b q e
| fetch_raises rs e :
    w_execute w b (PyStr q) = inr (Some rs) → is_select q = true →
    w_fetch w b = Some e → fails w b q e
| nothing_to_fetch :
    w_execute w b (PyStr q) = inr None → is_select q = true →
    fails w b q (no_result b).

(** What a query-string route answers for a statement that returned the
    rows [rs]. *)
Definition rows_body (b : backend) (rs : result_set) : body :=
  match b with
  | Pooled => BDicts (normalize (rs_columns rs) (rs_rows rs))
  | Direct => BTuples (rs_rows rs)
  end.

(** Whether a response body holds rows of a result. *)
Definition carries_rows (b : body) : bool :=
  match b with
  | BDicts _ | BTuples _ | BStatusData _ _ => true
  | BStatusMessage _ _ | BDetail _ => false
  end.

(** The key a request presents. *)
Definition presented_key (r : route) : pyval :=
  match r with
  | GET_sqlquery_alchemy _ k | GET_sqlquery_direct _ k => PyStr k
  | POST_querySalesforceData payload => default PyNone (payload !! "api_key")
  end.

(** The name under which a route is rate limited, if it is. *)
Definition limited_as (r : route) : option string :=
  match r with
  | GET_sqlquery_alchemy _ _ => Some "sqlquery_alchemy"
  | GET_sqlquery_direct _ _ => Some "sqlquery_direct"
  | POST_querySalesforceData _ => None
  end.

(** Whether the limiter lets a request through to its handler. *)
Definition limiter_allows {L} (hit : L → string → string → string → bool * L)
    (cfg : config) (r : request) (l : L) : bool :=
  match limited_as (req_route r) with
  | Some name => (hit l (RATE_LIMIT cfg) name (req_client r)).1
  | None => true
  end.

(** The limiter's store after a request. *)
Definition store_after {L} (hit : L → string → string → string → bool * L)
    (cfg : config) (r : request) (l : L) : L :=
  match limited_as (req_route r) with
  | Some name => (hit l (RATE_LIMIT cfg) name (req_client r)).2
  | None => l
  end.

(** The handler a route leads to. *)
Definition handler (cfg : config) (w : World) (r : request) : M app_exn body :=
  match req_route r with
  | GET_sqlquery_alchemy q k => sqlquery_alchemy cfg w q k (req_url r)
  | GET_sqlquery_direct q k => sqlquery_direct cfg w q k (req_url r)
  | POST_querySalesforceData payload => query_salesforce_data cfg w payload
  end.

Definition endpoint_for (r : route) : endpoint :=
  match r with
  | GET_sqlquery_alchemy _ _ => Alchemy
  | GET_sqlquery_direct _ _ => DirectDB
  | POST_querySalesforceData _ => Salesforce
  end.

Definition UNAUTHORIZED : response := Response 401 (BDetail "Invalid API key").

(** The content of a row-carrying response, as the claims describe it: one
    mapping per database row, in the database's order, whose keys are the
    result's columns and which sends the i-th column to the row's i-th
    cell. *)
Definition rows_as_described (rs : result_set) (data : list pydict) : Prop :=
  Forall2
    (λ row d,
       length (keys d) = length (rs_columns rs)
       ∧ keys d = rs_columns rs
       ∧ ∀ i c, rs_columns rs !! i = Some c → dict_get d c = row !! i)
    (rs_rows rs) data.

(** Whether an exception comes from the database layer: on the query-string
    routes, by the class the first [except] clause names; on the JSON route,
    whose single clause names [Exception], by the class of its driver. *)
Definition from_database (ep : endpoint) (e : exn) : bool :=
  match ep, e with
  | Alchemy, SQLAlchemyError _ => true
  | (DirectDB | Salesforce), PsycopgError _ => true
  | _, _ => false
  end.

(** The response a handler's [except] clauses lead to. *)
Definition failure_response (ep : endpoint) (e : exn) : response :=
  respond (run (on_error ep e)).2.

Definition detail_of (r : response) : string :=
  match content r with
  | BDetail d => d
  | _ => ""
  end.

(** ** Further observations on traces, statements and stores *)

Definition is_connected (ev : event) : bool :=
  match ev with EvConnect _ true => true | _ => false end.
Definition is_release (ev : event) : bool :=
  match ev with EvRelease _ => true | _ => false end.
Definition is_committed (ev : event) : bool :=
  match ev with EvCommit true => true | _ => false end.
Definition is_directive (ev : event) : bool :=
  match ev with EvDirective _ _ => true | _ => false end.
Definition is_fetch (ev : event) : bool :=
  match ev with EvFetch _ => true | _ => false end.
Definition is_log (ev : event) : bool :=
  match ev with EvLog _ _ => true | _ => false end.
Definition is_error_log (ev : event) : bool :=
  match ev with EvLog ERROR _ => true | _ => false end.

(** The argument a route passes to [execute]. *)
Definition statement_of (r : route) : pyval :=
  match r with
  | GET_sqlquery_alchemy q _ | GET_sqlquery_direct q _ => PyStr q
  | POST_querySalesforceData payload => default PyNone (payload !! "sqlquery")
  end.

(** [isinstance(v, str)] *)
Definition is_text (v : pyval) : bool :=
  match v with
  | PyStr _ => true
  | _ => false
  end.

(** Whether the statement of a request is a text classified as select. *)
Definition expects_rows (r : route) : bool :=
  match statement_of r with
  | PyStr q => is_select q
  | _ => false
  end.

(** The limiter's store after a sequence of requests, by the requests
    alone. *)
Definition store_after_all {L} (hit : L → string → string → string → bool * L)
    (cfg : config) (rs : list request) (l : L) : L :=
  foldl (λ l r, store_after hit cfg r l) l rs.

(** What the limiter is asked about a request: the name of its route and
    the client address, or nothing on a route without a limit. *)
Definition limit_key (r : request) : option (string * string) :=
  (λ name, (name, req_client r)) <$> limited_as (req_route r).

(** A text made of whitespace only, and a text without any whitespace. *)
Fixpoint is_blank (s : string) : bool :=
  match s with
  | EmptyString => true
  | String c s' => PyText.isspace c && is_blank s'
  end.

Fixpoint no_blank (s : string) : bool :=
  match s with
  | EmptyString => true
  | String c s' => negb (PyText.isspace c) && no_blank s'
  end.

(** The backend a route connects through. *)
Definition route_backend (r : route) : backend :=
  match r with
  | GET_sqlquery_alchemy _ _ => Pooled
  | GET_sqlquery_direct _ _ | POST_querySalesforceData _ => Direct
  end.

(** The environment [w] with other answers about the pool's listener. *)
Definition with_session (w : World) (new_physical : bool)
    (answer : option exn) : World := {|
  w_connect := w_connect w;
  w_new_physical := new_physical;
  w_set_session := answer;
  w_begin := w_begin w;
  w_directive := w_directive w;
  w_execute := w_execute w;
  w_fetch := w_fetch w;
  w_commit := w_commit w
|}.

(** Whether an entry of the trace concerns the listener: its call on the
    driver or an entry of the log. *)
Definition is_session_or_log (ev : event) : bool :=
  match ev with
  | EvSetSession _ | EvLog _ _ => true
  | _ => false
  end.

(** An environment in which the read-only directive is refused with [e]. *)
Definition refusing_directive (e : exn) : World := {|
  w_connect := fun _ => None;
  w_new_physical := false;
  w_set_session := None;
  w_begin := fun _ => None;
  w_directive := fun _ _ => Some e;
  w_execute := fun _ _ => inr None;
  w_fetch := fun _ => None;
  w_commit := fun _ => None
|}.

Definition key_only_payload : gmap string pyval :=
  {["api_key" := PyStr "s3cret"]}.

Definition right_key_request : request :=
  Request (GET_sqlquery_direct select_one "s3cret") "/sqlquery_direct/" "10.0.0.7".

(** The last value paired with [k], if any. *)
Fixpoint last_value (pairs : list (string * value)) (k : string)
  : option value :=
  match pairs with
  | [] => None
  | (k', v) :: pairs' =>
      match last_value pairs' k with
      | Some v' => Some v'
      | None => if String.eqb k' k then Some v else None
      end
  end.

(** ** Texts of any code points

    [PyText] holds the texts whose code points are below 256.  Here a text
    is the list of its code points, whatever they are, and the same test
    [sqlquery.strip().lower().startswith('select')] is written over it.
    [str.isspace] is true of the code points listed.  [str.lower] goes
    through the text code point by code point; below 256 a code point gives
    the one [PyText.lower_char] gives, above it gives what the tables of the
    interpreter say, which can be several code points and, for a capital
    sigma, depends on its neighbours: those tables are the parameter
    [lower_above], given the code points before, the code point, and the
    code points after. *)

(** The code points of a text of [PyText]. *)
Fixpoint codes (s : string) : list N :=
  match s with
  | EmptyString => []
  | String c s' => N_of_ascii c :: codes s'
  end.

Module Unicode.

Definition isspace (c : N) : bool :=
  (((9 <=? c) && (c <=? 13)) || ((28 <=? c) && (c <=? 32))
   || (c =? 133) || (c =? 160) || (c =? 5760)
   || ((8192 <=? c) && (c <=? 8202))
   || (c =? 8232) || (c =? 8233) || (c =? 8239) || (c =? 8287)
   || (c =? 12288))%N.

Fixpoint lstrip (t : list N) : list N :=
  match t with
  | [] => []
  | c :: t' => if isspace c then lstrip t' else t
  end.

Fixpoint rstrip (t : list N) : list N :=
  match t with
  | [] => []
  | c :: t' =>
      match rstrip t' with
      | [] => if isspace c then [] else [c]
      | r => c :: r
      end
  end.

Definition strip (t : list N) : list N := rstrip (lstrip t).

Fixpoint startswith (t p : list N) {struct p} : bool :=
  match p with
  | [] => true
  | a :: p' =>
      match t with
      | [] => false
      | c :: t' => (c =? a)%N && startswith t' p'
      end
  end.

Section Lower.

Variable lower_above : list N -> N -> list N -> list N.

Definition lower_at (before : list N) (c : N) (after : list N) : list N :=
  if (c <? 256)%N
  then [N_of_ascii (PyText.lower_char (ascii_of_N c))]
  else lower_above before c after.

Fixpoint lower_from (before t : list N) : list N :=
  match t with
  | [] => []
  | c :: t' => (lower_at before c t' ++ lower_from (before ++ [c]) t')%list
  end.

Definition lower (t : list N) : list N := lower_from [] t.

Definition is_select (t : list N) : bool :=
  startswith (lower (strip t)) (codes "select").

End Lower.

End Unicode.

(** One of the letters s, e, l, c, t. *)
Definition select_letter (x : N) : bool :=
  ((x =? 115) || (x =? 101) || (x =? 108) || (x =? 99) || (x =? 116))%N.

(** What is taken of the tables above 255: the lower-case form of a code
    point there is not empty and does not begin with a letter of "select".
    (The forms that begin below 128 at all are those of U+0130, which
    begins with i, and of U+212A, which is k.) *)
Definition keeps_off_select (lower_above : list N → N → list N → list N)
  : Prop :=
  ∀ before c after, (256 ≤ c)%N →
    ∃ x xs, lower_above before c after = x :: xs ∧ select_letter x = false.

(** Tables with the two forms that begin below 128 and every other code
    point left as it is. *)
Definition sample_lower_above (before : list N) (c : N) (after : list N)
  : list N :=
  if (c =? 304)%N then [105; 775]%N
  else if (c =? 8490)%N then [107]%N
  else [c].

(** [c] is the lower-case letter [a] or its capital. *)
Definition same_letter (c a : N) : bool := ((c =? a) || (c + 32 =? a))%N.

(** A text that begins with [p] in any case: a run of letters, each the
    letter of [p] at its place or its capital, and then anything. *)
Definition begins_in_any_case (p : string) (t : list N) : Prop :=
  ∃ k rest,
    t = (k ++ rest)%list ∧ Forall2 (λ c a, same_letter c a = true) k (codes p).

(** A text made of whitespace, then "select" in any case, then anything:
    the texts the classification is to say yes to. *)
Definition spells_select (t : list N) : Prop :=
  ∃ ws rest,
    t = (ws ++ rest)%list ∧ forallb Unicode.isspace ws = true
    ∧ begins_in_any_case "select" rest.

(** ** The exception a request meets *)

Definition backend_for (ep : endpoint) : backend :=
  match ep with
  | Alchemy => Pooled
  | DirectDB | Salesforce => Direct
  end.

(** What a route raises when its statement is a select that left no rows
    to read: [result.keys()] on the pooled route, [fetchall()] on the direct
    route, the iteration over [cursor.description] on the JSON route. *)
Definition no_rows_to_read (ep : endpoint) : exn :=
  match ep with
  | Salesforce => OtherException "'NoneType' object is not iterable"
  | _ => no_result (backend_for ep)
  end.

(** The first exception raised inside the [try] block of a route, going
    through its calls in the order the route makes them: connect, BEGIN, the
    read-only directive, the caller's statement, then for a select the read
    of the rows, and the commit.  [None] when every call returns. *)
Definition raised (ep : endpoint) (w : World) (arg : pyval) : option exn :=
  let b := backend_for ep in
  match w_connect w b with
  | Some e => Some e
  | None =>
  match w_begin w b with
  | Some e => Some e
  | None =>
  match w_directive w b READ_ONLY with
  | Some e => Some e
  | None =>
  match w_execute w b arg with
  | inl e => Some e
  | inr cur =>
      match arg with
      | PyStr q =>
          if is_select q then
            match cur with
            | None => Some (no_rows_to_read ep)
            | Some _ =>
                match w_fetch w b with
                | Some e => Some e
                | None => w_commit w b
                end
            end
          else w_commit w b
      | v =>
          Some (OtherException
                  ("'" ++ type_name v ++ "' object has no attribute 'strip'"))
      end
  end end end end.

(** The text of the 500 answer, as the claim has it: on the query-string
    routes the kind of the failure and then the exception's text, on the
    JSON route the exception's text alone. *)
Definition failure_message (ep : endpoint) (e : exn) : string :=
  match ep with
  | Salesforce => str e
  | _ =>
      (if from_database ep e then "Database error: " else "Unexpected error: ")
      ++ str e
  end.

(** An environment in which no connection can be made. *)
Definition unreachable (e : exn) : World := {|
  w_connect := fun _ => Some e;
  w_new_physical := false;
  w_set_session := None;
  w_begin := fun _ => None;
  w_directive := fun _ _ => None;
  w_execute := fun _ _ => inr None;
  w_fetch := fun _ => None;
  w_commit := fun _ => None
|}.

Definition connection_refused : exn :=
  SQLAlchemyError "(psycopg.OperationalError) connection refused".

Definition people : result_set :=
  ResultSet ["id"; "name"]
    [[VInt 1; VText "ada"]; [VInt 2; VText "bob"]; [VInt 3; VNull]].

Definition select_people : string := "select id, name from people".

Definition select_padded : string := "  SeLeCt id, name FROM people ".

Definition with_select : string := "WITH p AS (select 1) select * from p".

Local Open Scope list_scope.

(** ** Proof tactics *)

(** Reassociate list appends to the right. *)
Ltac reassoc := repeat (progress (rewrite <- ?app_assoc; simpl)); try done.

(** Unfold the handlers down to functions on traces. *)
Ltac unfold_handlers :=
  unfold sqlquery, sqlquery_alchemy, sqlquery_direct, query_salesforce_data,
    engine_connect, psycopg_connect, set_session_readonly, with_connection,
    transaction, directive, execute, fetchall, result_keys, description_names,
    on_error, call, log in *;
  unfold run, try_except, finally, mbind, M_bind, bind, mret, M_ret, ret,
    raise, emit in *.

(** The terms a handler branches on. *)
Ltac asked x :=
  lazymatch x with
  | w_connect _ _ => idtac
  | w_new_physical _ => idtac
  | w_set_session _ => idtac
  | w_begin _ _ => idtac
  | w_directive _ _ _ => idtac
  | w_execute _ _ _ => idtac
  | w_fetch _ _ => idtac
  | w_commit _ _ => idtac
  | is_select _ => idtac
  | String.eqb _ _ => idtac
  | negb _ => idtac
  | py_ne_str _ _ => idtac
  | _ => is_var x
  end.

(** Follow a handler through every answer it can get, outermost question
    first. *)
Ltac walk :=
  repeat (simpl;
          match goal with
          | |- context [match ?x with _ => _ end] => asked x; destruct x eqn:?
          end).

(** Split the trace reached by a failed statement just before its
    rollback. *)
Ltac up_to_rollback :=
  lazymatch goal with
  | |- ∃ t0, ?classify ?t = _ ∧ _ =>
      exists (take (length t - 2) t); simpl; by repeat split
  end.

(** Go through every path of the handler of [r]. *)
Ltac every_path r :=
  unfold handler, presented_key, expects_rows, statement_of;
  destruct (req_route r) as [?q ?k|?q ?k|?payload]; simpl;
  [ | | unfold query_salesforce_data;
        generalize (default PyNone (payload !! "sqlquery"))
                   (default PyNone (payload !! "api_key"));
        intros ?sqlq ?key ];
  unfold_handlers; walk; simpl.

(** Decide a fact about a character by going through all of them. *)
Ltac each_char c :=
  destruct c as [[] [] [] [] [] [] [] []]; vm_compute; try done.

(** Unfold the loading of the configuration. *)
Ltac unfold_startup :=
  unfold startup, log;
  unfold try_except, finally, mbind, M_bind, bind, mret, M_ret, ret, raise,
    emit.

(** * Properties *)

(** ** The transaction monitor *)

Lemma tx_inv_quiet s pre ev :
  tx_inv s pre → tx_boundary ev = false → tx_inv s (pre ++ [ev]).
Proof.
  intros Hinv Hq. destruct s; simpl in *.
  - exact I.
  - destruct Hinv as (p1 & p2 & -> & Hall).
    exists p1, (p2 ++ [ev]). split.
    + reassoc.
    + apply Forall_app. split; [done | by constructor].
  - destruct Hinv as (p1 & p2 & p3 & -> & Hall).
    exists p1, p2, (p3 ++ [ev]). split.
    + reassoc.
    + rewrite app_assoc. apply Forall_app. split; [done | by constructor].
Qed.

Lemma tx_step_inv s s' pre ev :
  tx_inv s pre → tx_step s ev = Some s' → tx_inv s' (pre ++ [ev]).
Proof.
  intros Hinv Hstep.
  destruct ev as [lv msg|b ok|ok|ok|sql ok|arg ok|ok|ok| |b]; simpl in Hstep;
    try (injection Hstep as <-; by apply tx_inv_quiet);
    try (injection Hstep as <-; exact I).
  - (* BEGIN *)
    destruct ok; injection Hstep as <-; [| exact I].
    exists pre, []. split; [done | constructor].
  - (* a directive of the gateway *)
    destruct ok; [| injection Hstep as <-; by apply tx_inv_quiet].
    destruct s; injection Hstep as <-; [exact I | |].
    + destruct (String.eqb sql READ_ONLY) eqn:Heq; [| by apply tx_inv_quiet].
      apply String.eqb_eq in Heq as ->.
      destruct Hinv as (p1 & p2 & -> & Hall).
      exists p1, p2, []. split.
      * reassoc.
      * by rewrite app_nil_r.
    + assert (tx_inv InReadOnlyTx (pre ++ [EvDirective sql true])) as H
        by by apply tx_inv_quiet.
      by destruct (String.eqb sql READ_ONLY).
  - (* the caller's statement *)
    destruct s; try discriminate. injection Hstep as <-.
    by apply tx_inv_quiet.
Qed.

Lemma tx_run_sound t : ∀ s pre,
  tx_inv s pre → is_Some (tx_run s t) →
  ∀ a arg ok post,
    t = (a ++ EvStatement arg ok :: post)%list →
    ∃ p1 p2 p3,
      (pre ++ a)%list
      = (p1 ++ EvBegin true :: p2 ++ EvDirective READ_ONLY true :: p3)%list
      ∧ Forall (λ ev, tx_boundary ev = false) (p2 ++ p3)%list.
Proof.
  induction t as [|ev t IH]; intros s pre Hinv Hrun a arg ok post Heq.
  - by destruct a.
  - simpl in Hrun. destruct (tx_step s ev) as [s'|] eqn:Hstep;
      [| by destruct Hrun].
    destruct a as [|ev' a]; simplify_eq/=.
    + destruct s; try discriminate. rewrite app_nil_r. exact Hinv.
    + destruct (IH s' (pre ++ [ev']) (tx_step_inv _ _ _ _ Hinv Hstep) Hrun
                   a arg ok post eq_refl) as (p1 & p2 & p3 & Hpre & Hall).
      exists p1, p2, p3. split; [| done].
      rewrite <- Hpre. reassoc.
Qed.

Lemma monitor_sound t :
  is_Some (tx_run NoTx t) → statements_in_read_only_tx t.
Proof.
  intros Hrun pre arg ok post Heq.
  exact (tx_run_sound t NoTx [] I Hrun pre arg ok post Heq).
Qed.

(** ** Running the handlers

    Each handler asks the environment a fixed, finite list of questions;
    the proofs about its traces go through the answers. *)

Lemma alchemy_monitored cfg w q k url :
  is_Some (tx_run NoTx (run (sqlquery_alchemy cfg w q k url)).1).
Proof. unfold_handlers. walk; simpl; eauto. Qed.

Lemma direct_monitored cfg w q k url :
  is_Some (tx_run NoTx (run (sqlquery_direct cfg w q k url)).1).
Proof. unfold_handlers. walk; simpl; eauto. Qed.

Lemma salesforce_monitored cfg w payload :
  is_Some (tx_run NoTx (run (query_salesforce_data cfg w payload)).1).
Proof.
  unfold query_salesforce_data.
  generalize (default PyNone (payload !! "sqlquery"))
             (default PyNone (payload !! "api_key")).
  intros sqlq key. unfold_handlers. walk; simpl; eauto.
Qed.

(** ** The application around the handlers *)

Lemma serve_unfold {L} (hit : L → string → string → string → bool * L)
    cfg w r l :
  serve hit cfg w r l
  = (store_after hit cfg r l,
     if limiter_allows hit cfg r l
     then ((run (handler cfg w r)).1, respond (run (handler cfg w r)).2)
     else ([], custom_rate_limit_exceeded_handler)).
Proof.
  unfold serve, dispatch, limit, limiter_allows, store_after, handler.
  destruct (req_route r) as [q k|q k|payload]; simpl.
  - destruct (hit l (RATE_LIMIT cfg) "sqlquery_alchemy" (req_client r))
      as [[] l']; simpl; [| done].
    by destruct (run (sqlquery_alchemy cfg w q k (req_url r))).
  - destruct (hit l (RATE_LIMIT cfg) "sqlquery_direct" (req_client r))
      as [[] l']; simpl; [| done].
    by destruct (run (sqlquery_direct cfg w q k (req_url r))).
  - by destruct (run (query_salesforce_data cfg w payload)).
Qed.

Lemma handler_monitored cfg w r :
  is_Some (tx_run NoTx (run (handler cfg w r)).1).
Proof.
  unfold handler. destruct (req_route r).
  - apply alchemy_monitored.
  - apply direct_monitored.
  - apply salesforce_monitored.
Qed.

(** C2: on every route, whatever the limiter, the environment and the
    request, each call that sends the caller's statement is preceded by a
    BEGIN that returned and then by a [SET TRANSACTION READ ONLY] that
    returned, with no commit, rollback, release or new BEGIN in between. *)
Theorem caller_statement_in_read_only_transaction
    {L} (hit : L → string → string → string → bool * L) cfg w r l :
  statements_in_read_only_tx (serve hit cfg w r l).2.1.
Proof.
  rewrite serve_unfold. apply monitor_sound.
  destruct (limiter_allows hit cfg r l); simpl.
  - apply handler_monitored.
  - by eexists.
Qed.

(** ** Classification of the statement *)

Lemma append_cons c (p rest : string) :
  (String c p ++ rest)%string = String c (p ++ rest)%string.
Proof. reflexivity. Qed.

Lemma prefix_app (p s : string) :
  String.prefix p s = true ↔ ∃ rest, s = (p ++ rest)%string.
Proof.
  revert s. induction p as [|c p IH]; intros s.
  - split; [intros _; by exists s | by destruct s].
  - destruct s as [|c' s]; simpl.
    + split; [done | by intros [rest ?]].
    + destruct (Ascii.ascii_dec c c') as [->|Hne].
      * rewrite IH.
        split; intros [rest H]; exists rest; rewrite append_cons in *;
          congruence.
      * split; [done | intros [rest H]; rewrite append_cons in H; congruence].
Qed.

Lemma is_select_spec q :
  is_select q = true
  ↔ ∃ rest, PyText.lower (PyText.strip q) = ("select" ++ rest)%string.
Proof. apply prefix_app. Qed.

(** *** Characters *)

Lemma code_below c : (c < 256)%N → ∃ ch, c = N_of_ascii ch.
Proof. intros Hc. exists (ascii_of_N c). by rewrite N_ascii_embedding. Qed.

Lemma codes_isspace ch : Unicode.isspace (N_of_ascii ch) = PyText.isspace ch.
Proof. each_char ch. Qed.

Lemma select_letter_cases a :
  select_letter a = true →
  a = 115%N ∨ a = 101%N ∨ a = 108%N ∨ a = 99%N ∨ a = 116%N.
Proof.
  unfold select_letter. rewrite !orb_true_iff, !N.eqb_eq. tauto.
Qed.

Lemma lower_char_same ch a :
  select_letter a = true →
  (N_of_ascii (PyText.lower_char ch) =? a)%N = same_letter (N_of_ascii ch) a.
Proof.
  intros [->|[->|[->|[->| ->]]]]%select_letter_cases; each_char ch.
Qed.

Lemma same_letter_below c a :
  select_letter a = true → same_letter c a = true → (c < 256)%N.
Proof.
  intros Ha%select_letter_cases. unfold same_letter.
  rewrite orb_true_iff, !N.eqb_eq. lia.
Qed.

Lemma same_letter_no_space c a :
  select_letter a = true → same_letter c a = true → Unicode.isspace c = false.
Proof.
  intros Ha%select_letter_cases. unfold same_letter.
  rewrite orb_true_iff, !N.eqb_eq. intros Hc.
  assert (c = 115 ∨ c = 101 ∨ c = 108 ∨ c = 99 ∨ c = 116
          ∨ c = 83 ∨ c = 69 ∨ c = 76 ∨ c = 67 ∨ c = 84)%N as Hcases by lia.
  clear -Hcases. by repeat (destruct Hcases as [->|Hcases]); subst.
Qed.

Lemma off_select_differs x a :
  select_letter x = false → select_letter a = true → (x =? a)%N = false.
Proof.
  intros Hx Ha. apply N.eqb_neq. intros ->. congruence.
Qed.

Lemma select_letters : Forall (λ a, select_letter a = true) (codes "select").
Proof. repeat constructor. Qed.

(** *** Trimming *)

Lemma u_lstrip_split t :
  ∃ ws, forallb Unicode.isspace ws = true ∧ t = ws ++ Unicode.lstrip t.
Proof.
  induction t as [|c t (ws & Hws & IH)]; simpl.
  - by exists [].
  - destruct (Unicode.isspace c) eqn:Hc.
    + exists (c :: ws). simpl. rewrite Hc, Hws. split; [done |]. by rewrite <- IH.
    + by exists [].
Qed.

Lemma u_lstrip_blank ws t :
  forallb Unicode.isspace ws = true → Unicode.lstrip (ws ++ t) = Unicode.lstrip t.
Proof.
  induction ws as [|c ws IH]; simpl; [done |].
  intros [Hc Hws]%andb_true_iff. rewrite Hc. by apply IH.
Qed.

Lemma u_rstrip_split t :
  ∃ ws, forallb Unicode.isspace ws = true ∧ t = Unicode.rstrip t ++ ws.
Proof.
  induction t as [|c t (ws & Hws & IH)]; simpl.
  - by exists [].
  - destruct (Unicode.rstrip t) as [|c' r] eqn:Hr.
    + simpl in IH. subst t. destruct (Unicode.isspace c) eqn:Hc.
      * exists (c :: ws). split; [| done]. simpl. by rewrite Hc.
      * by exists ws.
    + exists ws. split; [done |]. simpl in *. congruence.
Qed.

(** *** Beginning with a word in any case *)

Lemma begins_nil t : begins_in_any_case "" t.
Proof. exists [], t. split; [done | constructor]. Qed.

Lemma begins_cons a p c t :
  begins_in_any_case (String a p) (c :: t)
  ↔ same_letter c (N_of_ascii a) = true ∧ begins_in_any_case p t.
Proof.
  unfold begins_in_any_case. simpl. split.
  - intros (k & rest & Heq & Hall).
    apply Forall2_cons_inv_r in Hall as (c' & k' & Hc & Hall & ->).
    simpl in Heq. injection Heq as -> ->. eauto.
  - intros (Hc & k & rest & -> & Hall).
    exists (c :: k), rest. split; [done | by constructor].
Qed.

Lemma begins_empty a p : ¬ begins_in_any_case (String a p) [].
Proof.
  intros (k & rest & Heq & Hall). simpl in Hall.
  apply Forall2_cons_inv_r in Hall as (c' & k' & _ & _ & ->). done.
Qed.

Lemma begins_ignores_blank_suffix p : ∀ t ws,
  Forall (λ a, select_letter a = true) (codes p) →
  forallb Unicode.isspace ws = true →
  begins_in_any_case p (t ++ ws) ↔ begins_in_any_case p t.
Proof.
  induction p as [|a p IH]; intros t ws Hp Hws.
  - split; intros _; apply begins_nil.
  - simpl in Hp. apply Forall_cons in Hp as [Ha Hp].
    destruct t as [|c t]; simpl.
    + split; [| by intros []%begins_empty].
      destruct ws as [|c ws]; [by intros []%begins_empty |].
      intros [Hc _]%begins_cons. simpl in Hws.
      apply andb_true_iff in Hws as [Hsp _].
      by rewrite (same_letter_no_space c _ Ha Hc) in Hsp.
    + rewrite !begins_cons. by rewrite IH.
Qed.

Section WithTables.

Variable lower_above : list N → N → list N → list N.
Hypothesis Hoff : keeps_off_select lower_above.

Lemma startswith_lower p : ∀ before t,
  Forall (λ a, select_letter a = true) (codes p) →
  Unicode.startswith (Unicode.lower_from lower_above before t) (codes p) = true
  ↔ begins_in_any_case p t.
Proof.
  induction p as [|a p IH]; intros before t Hp.
  - simpl. split; [intros _; apply begins_nil | done].
  - simpl in Hp. apply Forall_cons in Hp as [Ha Hp].
    destruct t as [|c t].
    + simpl. split; [done | by intros []%begins_empty].
    + rewrite begins_cons. cbn [Unicode.lower_from codes].
      unfold Unicode.lower_at. destruct (N.ltb_spec c 256) as [Hc|Hc].
      * destruct (code_below c Hc) as [ch ->].
        rewrite ascii_N_embedding. simpl.
        rewrite lower_char_same by done.
        rewrite andb_true_iff. by rewrite IH.
      * destruct (Hoff before c t Hc) as (x & xs & -> & Hx). simpl.
        rewrite (off_select_differs x _ Hx Ha). simpl.
        split; [done |]. intros [Hsame _].
        pose proof (same_letter_below c _ Ha Hsame). lia.
Qed.

Lemma u_is_select_spec t :
  Unicode.is_select lower_above t = true ↔ spells_select t.
Proof.
  unfold Unicode.is_select, Unicode.lower, Unicode.strip.
  rewrite startswith_lower by apply select_letters.
  destruct (u_rstrip_split (Unicode.lstrip t)) as (ws' & Hws' & Hr).
  rewrite <- (begins_ignores_blank_suffix "select" _ ws')
    by (done || apply select_letters).
  rewrite <- Hr. split.
  - intros Hbegins. destruct (u_lstrip_split t) as (ws & Hws & Ht).
    by exists ws, (Unicode.lstrip t).
  - intros (ws & rest & -> & Hws & Hbegins).
    rewrite u_lstrip_blank by done.
    destruct rest as [|c rest]; [by apply begins_empty in Hbegins |].
    pose proof Hbegins as [Hc _]%begins_cons. simpl.
    by rewrite (same_letter_no_space c (N_of_ascii "s") eq_refl Hc).
Qed.

(** *** The texts of [PyText] among all texts *)

Lemma codes_lstrip s : codes (PyText.lstrip s) = Unicode.lstrip (codes s).
Proof.
  induction s as [|c s IH]; simpl; [done |].
  rewrite codes_isspace. by destruct (PyText.isspace c).
Qed.

Lemma codes_rstrip s : codes (PyText.rstrip s) = Unicode.rstrip (codes s).
Proof.
  induction s as [|c s IH]; simpl; [done |].
  rewrite <- IH, codes_isspace.
  destruct (PyText.rstrip s); simpl; [| done].
  by destruct (PyText.isspace c).
Qed.

Lemma codes_lower s : ∀ before,
  Unicode.lower_from lower_above before (codes s) = codes (PyText.lower s).
Proof.
  induction s as [|c s IH]; intros before; simpl; [done |].
  unfold Unicode.lower_at.
  destruct (N.ltb_spec (N_of_ascii c) 256) as [_|Hc].
  - rewrite ascii_N_embedding. simpl. by rewrite IH.
  - pose proof (N_ascii_bounded c). lia.
Qed.

Lemma codes_startswith p : ∀ s,
  Unicode.startswith (codes s) (codes p) = String.prefix p s.
Proof.
  induction p as [|a p IH]; intros s.
  - by destruct s.
  - destruct s as [|c s]; simpl; [done |].
    destruct (ascii_dec a c) as [->|Hne].
    + by rewrite N.eqb_refl, IH.
    + destruct (N.eqb_spec (N_of_ascii c) (N_of_ascii a)) as [Heq|_]; [| done].
      exfalso. apply Hne.
      by rewrite <- (ascii_N_embedding a), <- Heq, ascii_N_embedding.
Qed.

Lemma is_select_codes q :
  is_select q = Unicode.is_select lower_above (codes q).
Proof.
  unfold is_select, Unicode.is_select, PyText.startswith, PyText.strip,
    Unicode.strip, Unicode.lower.
  by rewrite <- codes_lstrip, <- codes_rstrip, codes_lower, codes_startswith.
Qed.

End WithTables.

Lemma sample_keeps_off_select : keeps_off_select sample_lower_above.
Proof.
  intros before c after Hc. unfold sample_lower_above.
  destruct (N.eqb_spec c 304) as [->|_]; [by eexists _, _ |].
  destruct (N.eqb_spec c 8490) as [->|_]; [by eexists _, _ |].
  exists c, []. split; [done |].
  unfold select_letter. rewrite !orb_false_iff, !N.eqb_neq. lia.
Qed.

Lemma is_select_spells q : is_select q = true ↔ spells_select (codes q).
Proof.
  rewrite (is_select_codes sample_lower_above).
  apply u_is_select_spec, sample_keeps_off_select.
Qed.

(** C3: the text is classified by trimming, lower-casing and testing for
    the prefix "select".  Over texts of any code points, and whatever the
    lower-case tables above 255 are as long as no form there begins with a
    letter of "select", the test says yes exactly to whitespace, then
    "select" in any case, then anything; on the texts of [PyText] the
    handlers' test is that test.  When every call returns, a text
    classified as select is answered with the rows of its result and any
    other text with the fixed acknowledgement, which holds no rows. *)
Theorem response_shape_follows_select_prefix cfg w b q url cur :
  accepts w b (PyStr q) cur →
  (∀ lower_above, keeps_off_select lower_above →
     ∀ t, Unicode.is_select lower_above t = true ↔ spells_select t)
  ∧ (∀ lower_above, is_select q = Unicode.is_select lower_above (codes q))
  ∧ (is_select q = true ↔ spells_select (codes q))
  ∧ (is_select q = true
     ↔ ∃ rest, PyText.lower (PyText.strip q) = ("select" ++ rest)%string)
  ∧ (is_select q = true → ∀ rs, cur = Some rs →
       (run (sqlquery b cfg w q (REX_API_KEY cfg) url)).2 = inr (rows_body b rs)
       ∧ carries_rows (rows_body b rs) = true)
  ∧ (is_select q = false →
       (run (sqlquery b cfg w q (REX_API_KEY cfg) url)).2 = inr ACK
       ∧ carries_rows ACK = false).
Proof.
  intros (Hconnect & Hbegin & Hdirective & Hexecute & Hfetch & Hcommit).
  split; [intros lower_above Hoff t; by apply u_is_select_spec |].
  split; [intros lower_above; apply is_select_codes |].
  split; [apply is_select_spells |].
  split; [apply is_select_spec |].
  split.
  - intros Hsel rs ->. split; [| by destruct b].
    destruct b; unfold_handlers;
      rewrite String.eqb_refl, Hconnect, Hbegin, Hdirective, Hexecute, Hsel,
        Hfetch, Hcommit; simpl; [| done].
    by destruct (w_new_physical w), (w_set_session w).
  - intros Hsel. split; [| done].
    destruct b; unfold_handlers;
      rewrite String.eqb_refl, Hconnect, Hbegin, Hdirective, Hexecute, Hsel,
        Hcommit; simpl; [| done].
    by destruct (w_new_physical w), (w_set_session w).
Qed.

(** ** Normalisation of rows *)

Lemma dict_set_fresh d k v :
  k ∉ keys d → dict_set d k v = d ++ [(k, v)].
Proof.
  induction d as [|[k' v'] d IH]; intros Hk; simpl; [done |].
  unfold keys in *. simpl in Hk. apply not_elem_of_cons in Hk as [Hne Hk].
  destruct (String.eqb_spec k' k) as [->|_]; [done |].
  by rewrite IH.
Qed.

Lemma fold_dict_set_distinct pairs : ∀ acc,
  NoDup (keys acc ++ pairs.*1) →
  fold_left (λ d kv, dict_set d kv.1 kv.2) pairs acc = acc ++ pairs.
Proof.
  induction pairs as [|[k v] pairs IH]; intros acc Hnd; simpl.
  - by rewrite app_nil_r.
  - simpl in Hnd.
    rewrite dict_set_fresh.
    + rewrite IH; [reassoc |].
      unfold keys. rewrite fmap_app. simpl. by rewrite <- app_assoc.
    + apply NoDup_app in Hnd as (_ & Hdisj & _).
      intros Hin. apply (Hdisj k Hin). by left.
Qed.

Lemma dict_of_distinct pairs : NoDup pairs.*1 → dict_of pairs = pairs.
Proof. intros Hnd. unfold dict_of. by rewrite fold_dict_set_distinct. Qed.

Lemma zip_keys columns : ∀ row,
  length row = length columns → (zip columns row).*1 = columns.
Proof.
  induction columns as [|c columns IH]; intros [|v row] Hlen; simpl in *;
    try done.
  f_equal. apply IH. lia.
Qed.

Lemma zip_get columns : ∀ row i c,
  NoDup columns → length row = length columns →
  columns !! i = Some c → dict_get (zip columns row) c = row !! i.
Proof.
  induction columns as [|c' columns IH]; intros [|v row] i c Hnd Hlen Hi;
    simpl in *; try done.
  apply NoDup_cons in Hnd as [Hfresh Hnd].
  destruct i as [|i]; simpl in *.
  - injection Hi as ->. by rewrite String.eqb_refl.
  - destruct (String.eqb_spec c' c) as [->|_].
    + exfalso. apply Hfresh. by eapply list_elem_of_lookup_2.
    + apply IH; [done | lia | done].
Qed.

Lemma normalize_described rs :
  rectangular rs → NoDup (rs_columns rs) →
  rows_as_described rs (normalize (rs_columns rs) (rs_rows rs)).
Proof.
  intros Hrect Hnd. unfold rows_as_described, normalize.
  apply Forall2_fmap_r, Forall_Forall2_diag.
  eapply Forall_impl; [exact Hrect |].
  intros row Hlen. unfold compose. cbv beta in *.
  rewrite dict_of_distinct by by rewrite zip_keys.
  unfold keys. rewrite zip_keys by done.
  split_and!; [done | done |].
  intros i c Hi. by apply zip_get.
Qed.

Lemma normalize_distinct columns rows :
  Forall (λ row, length row = length columns) rows → NoDup columns →
  normalize columns rows = (λ row, zip columns row) <$> rows.
Proof.
  intros Hrect Hnd. unfold normalize.
  induction rows as [|row rows IH]; [done |].
  apply Forall_cons in Hrect as [Hlen Hrect].
  rewrite !fmap_cons, IH by done. f_equal.
  apply dict_of_distinct. by rewrite zip_keys.
Qed.

Lemma normalize_zip rs :
  rectangular rs → NoDup (rs_columns rs) →
  normalize (rs_columns rs) (rs_rows rs)
  = (λ row, zip (rs_columns rs) row) <$> rs_rows rs.
Proof. apply normalize_distinct. Qed.

(** C4, amended: on the pooled route and on the JSON route, for a text
    classified as select whose execution returns a result with one cell per
    column in every row and pairwise distinct column names, the answer holds
    one mapping per database row, in the database's order; the keys of each
    mapping are the result's columns in order, and each column is sent to
    the row's cell in that column: the mapping of a row is the list of its
    cells, each paired with its column. *)
Theorem select_rows_are_column_mappings cfg w q url payload rs :
  is_select q = true → rectangular rs → NoDup (rs_columns rs) →
  (accepts w Pooled (PyStr q) (Some rs) →
   ∃ data,
     (run (sqlquery_alchemy cfg w q (REX_API_KEY cfg) url)).2 = inr (BDicts data)
     ∧ rows_as_described rs data
     ∧ data = (λ row, zip (rs_columns rs) row) <$> rs_rows rs)
  ∧ (accepts w Direct (PyStr q) (Some rs) →
     payload !! "sqlquery" = Some (PyStr q) →
     payload !! "api_key" = Some (PyStr (REX_API_KEY cfg)) →
     ∃ data,
       (run (query_salesforce_data cfg w payload)).2
       = inr (BStatusData "success" data)
       ∧ rows_as_described rs data
       ∧ data = (λ row, zip (rs_columns rs) row) <$> rs_rows rs).
Proof.
  intros Hsel Hrect Hnd. split.
  - intros (Hconnect & Hbegin & Hdirective & Hexecute & Hfetch & Hcommit).
    exists (normalize (rs_columns rs) (rs_rows rs)).
    split_and!; [| by apply normalize_described | by apply normalize_zip].
    unfold_handlers.
    rewrite String.eqb_refl, Hconnect, Hbegin, Hdirective, Hexecute, Hsel,
      Hfetch, Hcommit; simpl.
    by destruct (w_new_physical w), (w_set_session w).
  - intros (Hconnect & Hbegin & Hdirective & Hexecute & Hfetch & Hcommit)
      Hq Hk.
    exists (normalize (rs_columns rs) (rs_rows rs)).
    split_and!; [| by apply normalize_described | by apply normalize_zip].
    unfold query_salesforce_data. rewrite Hq, Hk. simpl.
    unfold_handlers.
    by rewrite String.eqb_refl, Hconnect, Hbegin, Hdirective, Hexecute, Hsel,
      Hfetch, Hcommit.
Qed.

(** ** The credential check *)

Lemma wrong_key_stops_handler cfg w r :
  py_ne_str (presented_key (req_route r)) (REX_API_KEY cfg) = true →
  run (handler cfg w r) = ([], inl (HTTPException 401 "Invalid API key")).
Proof.
  unfold handler, presented_key.
  destruct (req_route r) as [q k|q k|payload]; simpl; intros Hne.
  - unfold sqlquery_alchemy. by rewrite Hne.
  - unfold sqlquery_direct. by rewrite Hne.
  - unfold query_salesforce_data. by rewrite Hne.
Qed.

(** C5, amended: a request that presents a key other than the configured
    secret is answered 401 "Invalid API key" when the rate limiter lets it through
    (always, on the JSON route) and 429 when the limiter denies it, whatever
    the SQL text; in both cases no call is made on the pool or the driver. *)
Theorem wrong_key_never_reaches_database
    {L} (hit : L → string → string → string → bool * L) cfg w r l :
  py_ne_str (presented_key (req_route r)) (REX_API_KEY cfg) = true →
  (serve hit cfg w r l).2
  = ([], if limiter_allows hit cfg r l then UNAUTHORIZED
         else custom_rate_limit_exceeded_handler).
Proof.
  intros Hne. rewrite serve_unfold. simpl.
  destruct (limiter_allows hit cfg r l); [| done].
  by rewrite wrong_key_stops_handler.
Qed.

(** ** Failures of the caller's statement *)

(** C6: on the two query-string routes, when the execution of the caller's
    statement or the fetch of its rows raises, the transaction is rolled
    back, nothing was or is committed, the statement was sent once on the
    one connection made, and the exception raised is the one handed to the
    route's [except] clauses. *)
Theorem failure_rolls_back_and_is_classified cfg w b q url e :
  w_connect w b = None → w_begin w b = None →
  w_directive w b READ_ONLY = None →
  fails w b q e →
  ∃ t0,
    run (sqlquery b cfg w q (REX_API_KEY cfg) url)
    = on_error (endpoint_of b) e (t0 ++ [EvRollback; EvRelease b])
    ∧ count is_commit t0 = 0%nat ∧ count is_rollback t0 = 0%nat
    ∧ count is_statement t0 = 1%nat ∧ count is_connect t0 = 1%nat
    ∧ count is_commit (run (sqlquery b cfg w q (REX_API_KEY cfg) url)).1
      = 0%nat
    ∧ count is_rollback (run (sqlquery b cfg w q (REX_API_KEY cfg) url)).1
      = 1%nat
    ∧ count is_statement (run (sqlquery b cfg w q (REX_API_KEY cfg) url)).1
      = 1%nat.
Proof.
  intros Hconnect Hbegin Hdirective Hfails.
  unfold sqlquery, sqlquery_alchemy, sqlquery_direct, engine_connect,
    psycopg_connect, set_session_readonly, with_connection, transaction,
    directive, execute, fetchall, result_keys, call, log.
  unfold run, try_except, finally, mbind, M_bind, bind, mret, M_ret, ret,
    raise, emit.
  inversion Hfails as [e' Hexecute|rs e' Hexecute Hsel Hfetch|Hexecute Hsel];
    subst; destruct b;
    rewrite String.eqb_refl, Hconnect, Hbegin, Hdirective, Hexecute;
    rewrite ?Hsel, ?Hfetch; simpl;
    try (destruct (w_new_physical w), (w_set_session w); simpl);
    repeat (match goal with x : exn |- _ => destruct x end);
    up_to_rollback.
Qed.

(** ** The [except] clauses *)

Lemma failure_status ep e : status_code (failure_response ep e) = 500.
Proof. by destruct ep, e. Qed.

Lemma failure_detail ep e :
  detail_of (failure_response ep e)
  = match ep with
    | Salesforce => str e
    | _ =>
        ((if from_database ep e then "Database error: " else "Unexpected error: ")
         ++ str e)%string
    end.
Proof. by destruct ep, e. Qed.

Lemma handler_meets cfg w r :
  py_ne_str (presented_key (req_route r)) (REX_API_KEY cfg) = false →
  match raised (endpoint_for (req_route r)) w (statement_of (req_route r)) with
  | Some e =>
      (run (handler cfg w r)).2
      = inl (HTTPException 500
               (failure_message (endpoint_for (req_route r)) e))
  | None => ∃ body, (run (handler cfg w r)).2 = inr body
  end.
Proof.
  unfold handler, presented_key, statement_of, endpoint_for, raised,
    failure_message, no_rows_to_read, backend_for.
  destruct (req_route r) as [q k|q k|payload]; simpl.
  3: { unfold query_salesforce_data.
       generalize (default PyNone (payload !! "sqlquery"))
                  (default PyNone (payload !! "api_key")).
       intros sqlq key. unfold_handlers.
       walk; simpl; intros; try done; eauto. }
  all: unfold_handlers; walk; simpl; intros; try done; eauto.
Qed.

Lemma handler_classifies cfg w r e :
  py_ne_str (presented_key (req_route r)) (REX_API_KEY cfg) = false →
  raised (endpoint_for (req_route r)) w (statement_of (req_route r)) = Some e →
  (run (handler cfg w r)).2
  = inl (HTTPException 500 (failure_message (endpoint_for (req_route r)) e)).
Proof.
  intros Hkey Hraised. pose proof (handler_meets cfg w r Hkey) as Hmeets.
  by rewrite Hraised in Hmeets.
Qed.

(** C7, amended: with the right key, whichever call of a request raises
    first (the connection, BEGIN, the read-only directive, the caller's
    statement, the read of the rows or the commit), the request is answered
    500 with a message built from that exception.  On the two query-string
    routes an exception of the backend's database class gives
    "Database error: " followed by the exception's text and any other
    exception gives "Unexpected error: " followed by its text, so the two
    kinds never share a message.  On the JSON route every exception gives
    the exception's text alone, whatever its class. *)
Theorem failures_are_classified ep e :
  (∀ cfg w r e',
     endpoint_for (req_route r) = ep →
     py_ne_str (presented_key (req_route r)) (REX_API_KEY cfg) = false →
     raised ep w (statement_of (req_route r)) = Some e' →
     (run (handler cfg w r)).2
     = inl (HTTPException 500 (failure_message ep e'))
     ∧ respond (run (handler cfg w r)).2
       = Response 500 (BDetail (failure_message ep e')))
  ∧ (∀ cfg w r e',
       endpoint_for (req_route r) = ep →
       py_ne_str (presented_key (req_route r)) (REX_API_KEY cfg) = false →
       w_connect w (backend_for ep) = Some e' →
       (run (handler cfg w r)).2
       = inl (HTTPException 500 (failure_message ep e')))
  ∧ (∀ cfg w r e',
       endpoint_for (req_route r) = ep →
       py_ne_str (presented_key (req_route r)) (REX_API_KEY cfg) = false →
       w_connect w (backend_for ep) = None →
       w_begin w (backend_for ep) = None →
       w_directive w (backend_for ep) READ_ONLY = Some e' →
       (run (handler cfg w r)).2
       = inl (HTTPException 500 (failure_message ep e')))
  ∧ (∀ cfg w r,
       endpoint_for (req_route r) = ep →
       py_ne_str (presented_key (req_route r)) (REX_API_KEY cfg) = false →
       raised ep w (statement_of (req_route r)) = None →
       ∃ body, (run (handler cfg w r)).2 = inr body)
  ∧ (ep ≠ Salesforce → from_database ep e = true →
     failure_message ep e = ("Database error: " ++ str e)%string)
  ∧ (ep ≠ Salesforce → from_database ep e = false →
     failure_message ep e = ("Unexpected error: " ++ str e)%string)
  ∧ (ep = Salesforce → failure_message ep e = str e)
  ∧ status_code (failure_response ep e) = 500
  ∧ detail_of (failure_response ep e)
    = match ep with
      | Salesforce => str e
      | _ =>
          ((if from_database ep e
            then "Database error: " else "Unexpected error: ") ++ str e)%string
      end
  ∧ ∀ e', ep ≠ Salesforce →
          from_database ep e = true → from_database ep e' = false →
          detail_of (failure_response ep e) ≠ detail_of (failure_response ep e').
Proof.
  split_and!.
  - intros cfg w r e' <- Hkey Hraised.
    rewrite (handler_classifies cfg w r e') by done. done.
  - intros cfg w r e' <- Hkey Hconnect.
    apply handler_classifies; [done |]. unfold raised. by rewrite Hconnect.
  - intros cfg w r e' <- Hkey Hconnect Hbegin Hdirective.
    apply handler_classifies; [done |]. unfold raised.
    by rewrite Hconnect, Hbegin, Hdirective.
  - intros cfg w r <- Hkey Hnone.
    pose proof (handler_meets cfg w r Hkey) as Hmeets.
    by rewrite Hnone in Hmeets.
  - intros Hep Hdb. unfold failure_message. by destruct ep; rewrite ?Hdb.
  - intros Hep Hdb. unfold failure_message. by destruct ep; rewrite ?Hdb.
  - by intros ->.
  - apply failure_status.
  - apply failure_detail.
  - intros e' Hep Hdb Hother. rewrite !failure_detail.
    destruct ep; [| | done]; rewrite Hdb, Hother; discriminate.
Qed.

(** ** The rate limiter *)

Lemma serve_all_lookup {L} (hit : L → string → string → string → bool * L)
    cfg reqs : ∀ l i w r,
  reqs !! i = Some (w, r) →
  ∃ l', (serve_all hit cfg reqs l).2 !! i = Some (serve hit cfg w r l').2.
Proof.
  induction reqs as [|[w0 r0] reqs IH]; intros l i w r Hi; [done |].
  simpl. destruct (serve hit cfg w0 r0 l) as [l1 o] eqn:Hserve.
  destruct (serve_all hit cfg reqs l1) as [l2 os] eqn:Hall.
  destruct i as [|i]; simpl in *.
  - injection Hi as -> ->. exists l. by rewrite Hserve.
  - destruct (IH l1 i w r Hi) as [l' Hl']. exists l'. by rewrite Hall in Hl'.
Qed.

Lemma salesforce_status cfg w payload :
  status_code (respond (run (query_salesforce_data cfg w payload)).2) ≠ 429.
Proof.
  unfold query_salesforce_data.
  generalize (default PyNone (payload !! "sqlquery"))
             (default PyNone (payload !! "api_key")).
  intros sqlq key. unfold_handlers. walk; simpl; done.
Qed.

(** C8: a request the limiter denies is answered 429 with the fixed text of
    [custom_rate_limit_exceeded_handler] and reaches neither its handler nor
    the database; a request to the JSON route does not consult the limiter,
    leaves its store as it was, and is never answered 429, at any position
    of any sequence of requests. *)
Theorem denied_requests_get_429_and_json_route_is_unthrottled
    {L} (hit : L → string → string → string → bool * L) cfg :
  (∀ w r l, limiter_allows hit cfg r l = false →
     (serve hit cfg w r l).2
     = ([], Response 429
              (BDetail "Rate limit exceeded. Please try again later or contact your administrator.")))
  ∧ (∀ w payload url client l,
       let r := Request (POST_querySalesforceData payload) url client in
       limiter_allows hit cfg r l = true
       ∧ (serve hit cfg w r l).1 = l
       ∧ status_code (serve hit cfg w r l).2.2 ≠ 429)
  ∧ (∀ reqs l i w r t resp,
       reqs !! i = Some (w, r) → limited_as (req_route r) = None →
       (serve_all hit cfg reqs l).2 !! i = Some (t, resp) →
       status_code resp ≠ 429).
Proof.
  split_and!.
  - intros w r l Hdenied. rewrite serve_unfold. simpl. by rewrite Hdenied.
  - intros w payload url client l r. rewrite serve_unfold. simpl.
    split_and!; [done | done |]. apply salesforce_status.
  - intros reqs l i w r t resp Hi Hfree Hout.
    destruct (serve_all_lookup hit cfg reqs l i w r Hi) as [l' Hl'].
    rewrite Hl' in Hout. rewrite serve_unfold in Hout.
    unfold limiter_allows, handler in Hout. rewrite Hfree in Hout.
    destruct (req_route r) as [| |payload]; try discriminate.
    simpl in Hout. injection Hout as <- <-. apply salesforce_status.
Qed.

(** ** The pool's connect listener *)

(** C9: the listener that sets the session read-only returns whatever the
    driver does; when the driver raises, the listener only logs a warning
    with the exception's text, and a checkout whose connection was opened
    still succeeds. *)
Theorem set_session_readonly_never_raises w t :
  (set_session_readonly w t).2 = inr ()
  ∧ (∀ e, w_set_session w = Some e →
       (set_session_readonly w t).1
       = t ++ [EvSetSession false;
               EvLog WARNING
                 ("Failed to set SQLAlchemy session to readonly: " ++ str e)%string])
  ∧ (w_connect w Pooled = None → (engine_connect w t).2 = inr ()).
Proof.
  unfold engine_connect, set_session_readonly, call, log.
  unfold run, try_except, finally, mbind, M_bind, bind, mret, M_ret, ret,
    raise, emit.
  split_and!.
  - by destruct (w_set_session w).
  - intros e ->. simpl. reassoc.
  - intros ->. simpl. by destruct (w_new_physical w), (w_set_session w).
Qed.

(** ** The JSON route without a key *)

Lemma startup_secret environ t0 t cfg :
  startup environ t0 = (t, inr cfg) → REX_API_KEY cfg ≠ "".
Proof.
  unfold startup, log.
  unfold try_except, finally, mbind, M_bind, bind, mret, M_ret, ret, raise,
    emit.
  destruct (environ !! "DATABASE_URL") as [[|c url]|]; simpl; try done.
  destruct (environ !! "REX_API_KEY") as [[|c' key]|]; simpl; try done.
  intros [= _ <-]. done.
Qed.

(** C10: once the module has loaded, the configured secret is not empty,
    and a JSON payload without an "api_key" field is answered 401 "Invalid
    API key" with no call made on the driver: the missing key reads as
    [None], which is not equal to the secret. *)
Theorem missing_api_key_is_unauthorized
    {L} (hit : L → string → string → string → bool * L) environ t0 t cfg :
  startup environ t0 = (t, inr cfg) →
  REX_API_KEY cfg ≠ ""
  ∧ ∀ w payload url client l,
      payload !! "api_key" = None →
      presented_key (POST_querySalesforceData payload) = PyNone
      ∧ serve hit cfg w (Request (POST_querySalesforceData payload) url client) l
        = (l, ([], UNAUTHORIZED)).
Proof.
  intros Hstart. split; [by eapply startup_secret |].
  intros w payload url client l Hmissing.
  simpl. rewrite Hmissing. split; [done |].
  rewrite serve_unfold. simpl.
  unfold handler, query_salesforce_data. simpl. by rewrite Hmissing.
Qed.

(** ** The two backends compared *)

Lemma backends_agree_only_without_rows rs :
  to_json (rows_body Pooled rs) = to_json (rows_body Direct rs)
  ↔ rs_rows rs = [].
Proof.
  unfold rows_body, normalize. simpl.
  destruct (rs_rows rs) as [|row rows]; simpl; [done |].
  split; [| done]. unfold json_of_dict, json_of_tuple. intros [=].
Qed.

(** C1, at a failing input: for [select 1 as x], answered by the database
    with one column [x] and one row, the pooled route returns the row as a
    mapping from [x] to 1 and the direct route returns it as the bare
    sequence of its cells, without column names; the two JSON bodies
    differ. *)
Theorem backends_disagree_on_select_one :
  let w := answering (Some one_x) in
  let pooled :=
    (run (sqlquery_alchemy cfg0 w "select 1 as x" "s3cret" "/sqlquery_alchemy/")).2 in
  let direct :=
    (run (sqlquery_direct cfg0 w "select 1 as x" "s3cret" "/sqlquery_direct/")).2 in
  accepts w Pooled (PyStr "select 1 as x") (Some one_x)
  ∧ accepts w Direct (PyStr "select 1 as x") (Some one_x)
  ∧ is_select "select 1 as x" = true
  ∧ pooled = inr (BDicts [[("x", VInt 1)]])
  ∧ direct = inr (BTuples [[VInt 1]])
  ∧ to_json (BDicts [[("x", VInt 1)]]) = JArray [JObject [("x", JNumber 1)]]
  ∧ to_json (BTuples [[VInt 1]]) = JArray [JArray [JNumber 1]]
  ∧ to_json (BDicts [[("x", VInt 1)]]) ≠ to_json (BTuples [[VInt 1]]).
Proof. by vm_compute. Qed.

(** * The properties at concrete requests *)

(** C2 at a request that is served: the statement sits after BEGIN and the
    read-only directive. *)
Lemma caller_statement_in_read_only_transaction_witness :
  ∃ p1 p2 p3,
    [EvLog DEBUG "Received API call to direct connection endpoint: /sqlquery_direct/";
     EvLog DEBUG "SQL Query: select 1 as x";
     EvConnect Direct true; EvBegin true; EvDirective READ_ONLY true]
    = p1 ++ EvBegin true :: p2 ++ EvDirective READ_ONLY true :: p3
    ∧ Forall (λ ev, tx_boundary ev = false) (p2 ++ p3).
Proof.
  apply (caller_statement_in_read_only_transaction window_hit cfg0
           (answering (Some one_x))
           (Request (GET_sqlquery_direct select_one "s3cret")
              "/sqlquery_direct/" "10.0.0.7") ∅
           _ (PyStr select_one) true
           [EvFetch true;
            EvLog DEBUG
              "Query executed successfully via direct connection, returned 1 rows";
            EvCommit true; EvRelease Direct]).
  by vm_compute.
Defined.

(** C3 at a select with blanks around it and letters of both cases, at a
    text that only holds a select further on, and, over all code points, at
    a select after an em space (U+2003). *)
Lemma response_shape_follows_select_prefix_witness :
  (run (sqlquery Pooled cfg0 (answering (Some people)) select_padded "s3cret" "/")).2
  = inr (BDicts [[("id", VInt 1); ("name", VText "ada")];
                 [("id", VInt 2); ("name", VText "bob")];
                 [("id", VInt 3); ("name", VNull)]])
  ∧ (run (sqlquery Direct cfg0 (answering (Some people)) with_select "s3cret" "/")).2
    = inr ACK
  ∧ Unicode.is_select sample_lower_above (8195%N :: codes "SELECT 1") = true.
Proof.
  destruct (response_shape_follows_select_prefix cfg0
              (answering (Some people)) Pooled select_padded "/" (Some people))
    as (Hany & _ & _ & _ & Hrows & _); [by vm_compute |].
  destruct (response_shape_follows_select_prefix cfg0
              (answering (Some people)) Direct with_select "/" (Some people))
    as (_ & _ & _ & _ & _ & Hack); [by vm_compute |].
  split_and!.
  - exact (proj1 (Hrows eq_refl people eq_refl)).
  - exact (proj1 (Hack eq_refl)).
  - apply (Hany sample_lower_above sample_keeps_off_select).
    exists [8195%N], (codes "SELECT 1"). split_and!; [done | done |].
    exists (codes "SELECT"), (codes " 1"). split; [done |].
    repeat constructor.
Defined.

(** C4 as stated fails: [select 1 as x, 2 as x] returns two columns, both
    named [x], and the pooled route answers with a mapping of one key. *)
Lemma duplicate_column_names_collapse :
  accepts (answering (Some x_x)) Pooled (PyStr select_twice) (Some x_x)
  ∧ is_select select_twice = true
  ∧ rectangular x_x
  ∧ (run (sqlquery_alchemy cfg0 (answering (Some x_x)) select_twice "s3cret" "/")).2
    = inr (BDicts [[("x", VInt 2)]])
  ∧ ¬ rows_as_described x_x [[("x", VInt 2)]].
Proof.
  split_and!; try by vm_compute.
  - repeat constructor.
  - intros Hrows. apply Forall2_cons_1 in Hrows as [[Hlen _] _].
    by vm_compute in Hlen.
Qed.

(** C4, amended, at a result of two columns and three rows, on both
    routes. *)
Lemma select_rows_are_column_mappings_witness :
  (run (sqlquery_alchemy cfg0 (answering (Some people)) select_people "s3cret" "/")).2
  = inr (BDicts [[("id", VInt 1); ("name", VText "ada")];
                 [("id", VInt 2); ("name", VText "bob")];
                 [("id", VInt 3); ("name", VNull)]])
  ∧ (run (query_salesforce_data cfg0 (answering (Some people))
            (<["sqlquery" := PyStr select_people]> key_only_payload))).2
    = inr (BStatusData "success"
             [[("id", VInt 1); ("name", VText "ada")];
              [("id", VInt 2); ("name", VText "bob")];
              [("id", VInt 3); ("name", VNull)]])
  ∧ rows_as_described people
      [[("id", VInt 1); ("name", VText "ada")];
       [("id", VInt 2); ("name", VText "bob")];
       [("id", VInt 3); ("name", VNull)]].
Proof.
  assert (rectangular people) as Hrect by repeat constructor.
  assert (NoDup (rs_columns people)) as Hnd.
  { apply (bool_decide_unpack _). by vm_compute. }
  destruct (select_rows_are_column_mappings cfg0 (answering (Some people))
              select_people "/"
              (<["sqlquery" := PyStr select_people]> key_only_payload) people
              eq_refl Hrect Hnd) as [Hpooled Hjson].
  destruct Hpooled as (data & Hrun & Hdesc & ->); [by vm_compute |].
  destruct Hjson as (data' & Hrun' & _ & ->); [by vm_compute ..|].
  split_and!; [exact Hrun | exact Hrun' | exact Hdesc].
Defined.

(** C5 as stated fails: under the limit "1/hour", the second request from
    an address is answered 429 although its key is wrong. *)
Lemma wrong_key_beyond_quota_is_rate_limited :
  RATE_LIMIT cfg1 = "1/hour"
  ∧ py_ne_str (presented_key (req_route wrong_key_request)) (REX_API_KEY cfg1) = true
  ∧ (serve_all window_hit cfg1
       [(answering (Some one_x), wrong_key_request);
        (answering (Some one_x), wrong_key_request)] ∅).2
    = [([], UNAUTHORIZED); ([], custom_rate_limit_exceeded_handler)]
  ∧ status_code custom_rate_limit_exceeded_handler ≠ 401.
Proof. by vm_compute. Qed.

(** C5, amended, at a first request with a wrong key. *)
Lemma wrong_key_never_reaches_database_witness :
  (serve window_hit cfg0 (answering (Some one_x)) wrong_key_request ∅).2
  = ([], UNAUTHORIZED).
Proof.
  rewrite (wrong_key_never_reaches_database window_hit cfg0
             (answering (Some one_x)) wrong_key_request ∅ eq_refl).
  by vm_compute.
Defined.

(** C6 at a DELETE that the read-only transaction refuses. *)
Lemma failure_rolls_back_and_is_classified_witness :
  count is_commit
    (run (sqlquery Direct cfg0 (refusing delete_refused)
            "delete from accounts" "s3cret" "/")).1 = 0%nat
  ∧ count is_rollback
      (run (sqlquery Direct cfg0 (refusing delete_refused)
              "delete from accounts" "s3cret" "/")).1 = 1%nat.
Proof.
  destruct (failure_rolls_back_and_is_classified cfg0
              (refusing delete_refused) Direct "delete from accounts" "/"
              delete_refused eq_refl eq_refl eq_refl
              (execute_raises (refusing delete_refused) Direct
                 "delete from accounts" delete_refused eq_refl))
    as (t0 & _ & _ & _ & _ & _ & Hcommit & Hrollback & _).
  by split.
Defined.

(** C7 as stated fails on the JSON route: a driver error and any other
    error with the same text get the same response. *)
Lemma salesforce_failures_share_message :
  from_database Salesforce (PsycopgError "boom") = true
  ∧ from_database Salesforce (OtherException "boom") = false
  ∧ failure_response Salesforce (PsycopgError "boom")
    = failure_response Salesforce (OtherException "boom")
  ∧ (run (query_salesforce_data cfg0 (refusing (PsycopgError "boom")) good_payload)).2
    = (run (query_salesforce_data cfg0 (refusing (OtherException "boom")) good_payload)).2.
Proof. by vm_compute. Qed.

(** C7, amended, at a connection the pool cannot make and at a directive
    the direct backend refuses. *)
Lemma failures_are_classified_witness :
  (run (sqlquery_alchemy cfg0 (unreachable connection_refused) select_one
          "s3cret" "/sqlquery_alchemy/")).2
  = inl (HTTPException 500
           "Database error: (psycopg.OperationalError) connection refused")
  ∧ (run (sqlquery_direct cfg0 (refusing_directive delete_refused) select_one
            "s3cret" "/sqlquery_direct/")).2
    = inl (HTTPException 500
             "Database error: cannot execute DELETE in a read-only transaction").
Proof.
  split.
  - destruct (failures_are_classified Alchemy connection_refused)
      as (_ & Hconnect & _).
    exact (Hconnect cfg0 (unreachable connection_refused)
             (Request (GET_sqlquery_alchemy select_one "s3cret")
                "/sqlquery_alchemy/" "10.0.0.7")
             connection_refused eq_refl eq_refl eq_refl).
  - destruct (failures_are_classified DirectDB delete_refused)
      as (_ & _ & Hdirective & _).
    exact (Hdirective cfg0 (refusing_directive delete_refused)
             right_key_request delete_refused
             eq_refl eq_refl eq_refl eq_refl eq_refl).
Defined.

(** C8 at a second request under the limit "1/hour". *)
Lemma denied_requests_get_429_and_json_route_is_unthrottled_witness :
  (serve window_hit cfg1 (answering (Some one_x)) wrong_key_request
     {[("sqlquery_alchemy", "10.0.0.7") := 1%nat]}).2
  = ([], Response 429
           (BDetail "Rate limit exceeded. Please try again later or contact your administrator.")).
Proof.
  destruct (denied_requests_get_429_and_json_route_is_unthrottled
              window_hit cfg1) as (Hdenied & _ & _).
  apply Hdenied. by vm_compute.
Defined.

(** C9 at a driver without [set_session]. *)
Lemma set_session_readonly_never_raises_witness :
  (set_session_readonly
     {| w_connect := λ _, None; w_new_physical := true;
        w_set_session :=
          Some (OtherException "'Connection' object has no attribute 'set_session'");
        w_begin := λ _, None; w_directive := λ _ _, None;
        w_execute := λ _ _, inr None; w_fetch := λ _, None;
        w_commit := λ _, None |} []).1
  = [EvSetSession false;
     EvLog WARNING
       "Failed to set SQLAlchemy session to readonly: 'Connection' object has no attribute 'set_session'"].
Proof.
  destruct (set_session_readonly_never_raises
              {| w_connect := λ _, None; w_new_physical := true;
                 w_set_session :=
                   Some (OtherException "'Connection' object has no attribute 'set_session'");
                 w_begin := λ _, None; w_directive := λ _ _, None;
                 w_execute := λ _ _, inr None; w_fetch := λ _, None;
                 w_commit := λ _, None |} []) as (_ & Hlog & _).
  exact (Hlog _ eq_refl).
Defined.

(** C10 at a payload that holds only a statement. *)
Lemma missing_api_key_is_unauthorized_witness :
  serve window_hit cfg0 (answering (Some one_x))
    (Request (POST_querySalesforceData {["sqlquery" := PyStr select_one]})
       "/querySalesforceData" "10.0.0.7") ∅
  = (∅, ([], UNAUTHORIZED)).
Proof.
  destruct (missing_api_key_is_unauthorized window_hit environ0 []
              [EvLog INFO "Using rate limit: 100/hour"] cfg0)
    as [_ Hserve]; [by vm_compute |].
  destruct (Hserve (answering (Some one_x)) {["sqlquery" := PyStr select_one]}
              "/querySalesforceData" "10.0.0.7" ∅) as [_ Heq]; [by vm_compute |].
  rewrite <- Heq. by vm_compute.
Defined.

(** * Further properties of the code *)

(** ** Every path of a request *)

Lemma handler_releases cfg w r :
  count is_connected (run (handler cfg w r)).1
  = count is_release (run (handler cfg w r)).1.
Proof. every_path r; done. Qed.

(** X1: on every route and every path (success, refusal by the database at
    any call, wrong key, denial by the limiter) the connections opened and
    the connections released are as many: none is left open. *)
Theorem every_connection_is_released
    {L} (hit : L → string → string → string → bool * L) cfg w r l :
  count is_connected (serve hit cfg w r l).2.1
  = count is_release (serve hit cfg w r l).2.1.
Proof.
  rewrite serve_unfold. simpl.
  destruct (limiter_allows hit cfg r l); simpl; [| done].
  apply handler_releases.
Qed.

Lemma handler_calls_once cfg w r :
  (count is_connect (run (handler cfg w r)).1 ≤ 1)%nat
  ∧ (count is_directive (run (handler cfg w r)).1 ≤ 1)%nat
  ∧ (count is_statement (run (handler cfg w r)).1 ≤ 1)%nat
  ∧ (count is_fetch (run (handler cfg w r)).1 ≤ 1)%nat
  ∧ (count is_commit (run (handler cfg w r)).1 ≤ 1)%nat.
Proof. every_path r; unfold count; simpl; repeat split; lia. Qed.

(** X2: a request makes each call on the database at most once, whatever
    the answers: one connection attempt, one read-only directive, one send
    of the caller's statement, one fetch, one commit.  Nothing is tried a
    second time on any path. *)
Theorem no_call_is_repeated
    {L} (hit : L → string → string → string → bool * L) cfg w r l :
  (count is_connect (serve hit cfg w r l).2.1 ≤ 1)%nat
  ∧ (count is_directive (serve hit cfg w r l).2.1 ≤ 1)%nat
  ∧ (count is_statement (serve hit cfg w r l).2.1 ≤ 1)%nat
  ∧ (count is_fetch (serve hit cfg w r l).2.1 ≤ 1)%nat
  ∧ (count is_commit (serve hit cfg w r l).2.1 ≤ 1)%nat.
Proof.
  rewrite serve_unfold. simpl.
  destruct (limiter_allows hit cfg r l); simpl;
    [| unfold count; simpl; repeat split; lia].
  apply handler_calls_once.
Qed.

(** X3: a handler returns a body exactly when the transaction of the
    request was committed; a handler that raises, be it 401 or 500, left
    nothing committed, and no request both commits and rolls back. *)
Theorem handler_returns_iff_committed cfg w r :
  ((∃ b, (run (handler cfg w r)).2 = inr b)
   ↔ count is_committed (run (handler cfg w r)).1 = 1%nat)
  ∧ (∀ e, (run (handler cfg w r)).2 = inl e →
       count is_committed (run (handler cfg w r)).1 = 0%nat)
  ∧ (count is_committed (run (handler cfg w r)).1
     + count is_rollback (run (handler cfg w r)).1 ≤ 1)%nat.
Proof.
  every_path r; unfold count; simpl;
    (split_and!;
       [ split; [by intros [? ?] | intros ?; first [done | by eexists]]
       | by intros ? ?
       | lia ]).
Qed.

Lemma handler_fetches_for_select cfg w r :
  (count is_fetch (run (handler cfg w r)).1
   ≤ if expects_rows (req_route r) then 1 else 0)%nat.
Proof. every_path r; unfold count; simpl; lia. Qed.

(** X4: rows are fetched only for a statement that is a text classified as
    select, and then at most once; for any other statement the result is
    never fetched, even when the database returned rows for it. *)
Theorem fetch_only_for_select
    {L} (hit : L → string → string → string → bool * L) cfg w r l :
  (count is_fetch (serve hit cfg w r l).2.1
   ≤ if expects_rows (req_route r) then 1 else 0)%nat.
Proof.
  rewrite serve_unfold. simpl.
  destruct (limiter_allows hit cfg r l); simpl;
    [apply handler_fetches_for_select |].
  unfold count. simpl. lia.
Qed.

Lemma handler_unauthorized_iff cfg w r :
  status_code (respond (run (handler cfg w r)).2) = 401
  ↔ py_ne_str (presented_key (req_route r)) (REX_API_KEY cfg) = true.
Proof. every_path r; split; intros; done. Qed.

(** X5: for a request the limiter lets through, the answer is 401 exactly
    when the presented key is not the configured secret: with the right key
    no path of any route answers 401, whatever the database does. *)
Theorem unauthorized_iff_key_differs
    {L} (hit : L → string → string → string → bool * L) cfg w r l :
  limiter_allows hit cfg r l = true →
  (status_code (serve hit cfg w r l).2.2 = 401
   ↔ py_ne_str (presented_key (req_route r)) (REX_API_KEY cfg) = true).
Proof.
  intros Hallowed. rewrite serve_unfold. simpl. rewrite Hallowed. simpl.
  apply handler_unauthorized_iff.
Qed.

(** X6: on the JSON route, a payload with the right key whose "sqlquery" is
    missing or is not a string is answered 500 with nothing committed; the
    statement is not checked before the database is reached, so a
    connection is attempted all the same. *)
Theorem json_route_without_text_statement cfg w payload :
  py_ne_str (default PyNone (payload !! "api_key")) (REX_API_KEY cfg) = false →
  is_text (default PyNone (payload !! "sqlquery")) = false →
  status_code (respond (run (query_salesforce_data cfg w payload)).2) = 500
  ∧ count is_connect (run (query_salesforce_data cfg w payload)).1 = 1%nat
  ∧ count is_committed (run (query_salesforce_data cfg w payload)).1 = 0%nat.
Proof.
  unfold query_salesforce_data.
  generalize (default PyNone (payload !! "sqlquery"))
             (default PyNone (payload !! "api_key")).
  intros sqlq key. unfold_handlers. walk; simpl; done.
Qed.

(** X7: the two query-string routes log the caller's SQL text in full at
    DEBUG before they touch the database, and write exactly one ERROR entry
    when the handler raises its 500 and none when it returns or raises 401;
    the handler of the JSON route writes no log entry at all, failures
    included. *)
Theorem what_each_route_logs cfg w r :
  match req_route r with
  | POST_querySalesforceData _ =>
      count is_log (run (handler cfg w r)).1 = 0%nat
  | GET_sqlquery_alchemy q k | GET_sqlquery_direct q k =>
      ((∃ detail, (run (handler cfg w r)).2 = inl (HTTPException 500 detail))
       ↔ count is_error_log (run (handler cfg w r)).1 = 1%nat)
      ∧ (count is_error_log (run (handler cfg w r)).1 ≤ 1)%nat
      ∧ (String.eqb k (REX_API_KEY cfg) = true →
         ∃ received rest,
           (run (handler cfg w r)).1
           = EvLog DEBUG received
             :: EvLog DEBUG ("SQL Query: " ++ q)%string :: rest)
  end.
Proof.
  unfold handler.
  destruct (req_route r) as [q k|q k|payload]; simpl.
  3: { unfold query_salesforce_data.
       generalize (default PyNone (payload !! "sqlquery"))
                  (default PyNone (payload !! "api_key")).
       intros sqlq key. unfold_handlers. walk; simpl; done. }
  all: unfold_handlers; walk; unfold count; simpl;
    (split_and!;
       [ split; [by intros [? ?] | intros ?; first [done | by eexists]]
       | lia
       | intros Hk; first [ by rewrite Hk in * | by eexists _, _ ] ]).
Qed.

(** ** The limiter's store over a sequence of requests *)

Lemma store_after_by_key {L} (hit : L → string → string → string → bool * L)
    cfg r r' l :
  limit_key r = limit_key r' → store_after hit cfg r l = store_after hit cfg r' l.
Proof.
  unfold limit_key, store_after.
  destruct (limited_as (req_route r)), (limited_as (req_route r')); simpl;
    intros [=]; congruence.
Qed.

Lemma serve_all_store {L} (hit : L → string → string → string → bool * L)
    cfg reqs : ∀ l,
  (serve_all hit cfg reqs l).1 = store_after_all hit cfg reqs.*2 l.
Proof.
  induction reqs as [|[w r] reqs IH]; intros l; [done |].
  simpl. destruct (serve hit cfg w r l) as [l1 o] eqn:Hserve.
  destruct (serve_all hit cfg reqs l1) as [l2 os] eqn:Hall.
  rewrite serve_unfold in Hserve. injection Hserve as <- _.
  specialize (IH (store_after hit cfg r l)). rewrite Hall in IH.
  exact IH.
Qed.

(** X8: what the limiter has counted after a sequence of requests depends
    only on the route name and client address of each request: the keys
    presented, the SQL texts and the answers of the database play no part,
    so requests with a wrong key use up the quota like any other. *)
Theorem limiter_counts_regardless_of_outcome
    {L} (hit : L → string → string → string → bool * L) cfg
    (reqs reqs' : list (World * request)) l :
  limit_key <$> reqs.*2 = limit_key <$> reqs'.*2 →
  (serve_all hit cfg reqs l).1 = (serve_all hit cfg reqs' l).1.
Proof.
  rewrite !serve_all_store.
  generalize (reqs.*2) (reqs'.*2). clear reqs reqs'.
  intros rs. revert l.
  induction rs as [|r rs IH]; intros l [|r' rs'] Heq; simplify_eq/=; [done |].
  rewrite (store_after_by_key hit cfg r r' l) by done. by apply IH.
Qed.

(** ** The JSON route and the pooled route on the same result *)

(** X9: for a text classified as select that both backends execute with the
    same result, the "data" of the JSON route is the very list of mappings
    the pooled route returns, duplicate column names included; the JSON
    route only wraps it with a "status" field. *)
Theorem json_route_data_is_pooled_rows cfg w q url payload rs :
  is_select q = true →
  accepts w Pooled (PyStr q) (Some rs) →
  accepts w Direct (PyStr q) (Some rs) →
  payload !! "sqlquery" = Some (PyStr q) →
  payload !! "api_key" = Some (PyStr (REX_API_KEY cfg)) →
  ∃ data,
    (run (sqlquery_alchemy cfg w q (REX_API_KEY cfg) url)).2 = inr (BDicts data)
    ∧ (run (query_salesforce_data cfg w payload)).2
      = inr (BStatusData "success" data)
    ∧ to_json (BStatusData "success" data)
      = JObject [("status", JString "success"); ("data", to_json (BDicts data))].
Proof.
  intros Hsel (Hc & Hb & Hd & He & Hf & Hcm) (Hc' & Hb' & Hd' & He' & Hf' & Hcm')
    Hq Hk.
  exists (normalize (rs_columns rs) (rs_rows rs)). split_and!; [| | done].
  - unfold_handlers.
    rewrite String.eqb_refl, Hc, Hb, Hd, He, Hsel, Hf, Hcm; simpl.
    by destruct (w_new_physical w), (w_set_session w).
  - unfold query_salesforce_data. rewrite Hq, Hk. simpl. unfold_handlers.
    by rewrite String.eqb_refl, Hc', Hb', Hd', He', Hsel, Hf', Hcm'.
Qed.

(** ** Normalisation whatever the column names *)

Lemma dict_get_set d k v k' :
  dict_get (dict_set d k v) k'
  = if String.eqb k k' then Some v else dict_get d k'.
Proof.
  induction d as [|[k0 v0] d IH]; simpl.
  - done.
  - destruct (String.eqb_spec k0 k) as [->|Hne]; simpl.
    + by destruct (String.eqb k k').
    + rewrite IH. destruct (String.eqb_spec k0 k') as [->|Hne']; [| done].
      by destruct (String.eqb_spec k k') as [->|_].
Qed.

Lemma keys_cons k v (d : pydict) : keys ((k, v) :: d) = k :: keys d.
Proof. reflexivity. Qed.

Lemma keys_dict_set d k v :
  keys (dict_set d k v) = if bool_decide (k ∈ keys d) then keys d else keys d ++ [k].
Proof.
  induction d as [|[k0 v0] d IH]; [done |].
  cbn [dict_set]. destruct (String.eqb_spec k0 k) as [->|Hne];
    rewrite !keys_cons.
  - rewrite bool_decide_eq_true_2; [done | by left].
  - rewrite IH. case_bool_decide as Hin.
    + rewrite bool_decide_eq_true_2; [done | by right].
    + rewrite bool_decide_eq_false_2; [done |].
      intros Hin'. apply elem_of_cons in Hin' as [->|?]; done.
Qed.

Lemma dict_set_NoDup d k v : NoDup (keys d) → NoDup (keys (dict_set d k v)).
Proof.
  intros Hnd. rewrite keys_dict_set. case_bool_decide as Hin; [done |].
  apply NoDup_app. split_and!; [done | | apply NoDup_singleton].
  intros x Hx Hx'. apply list_elem_of_singleton in Hx' as ->. done.
Qed.

Lemma dict_set_keys_subseteq d k v : keys (dict_set d k v) ⊆ k :: keys d.
Proof.
  rewrite keys_dict_set. intros x Hx. case_bool_decide.
  - by right.
  - apply elem_of_app in Hx as [Hx|Hx]; [by right |].
    apply list_elem_of_singleton in Hx as ->. by left.
Qed.

Lemma fold_dict_set_spec pairs : ∀ acc,
  NoDup (keys acc) →
  let d := fold_left (λ d kv, dict_set d kv.1 kv.2) pairs acc in
  NoDup (keys d)
  ∧ keys d ⊆ keys acc ++ pairs.*1
  ∧ ∀ c, dict_get d c = match last_value pairs c with
                        | Some v => Some v
                        | None => dict_get acc c
                        end.
Proof.
  induction pairs as [|[k v] pairs IH]; intros acc Hnd; simpl.
  - split_and!; [done | by rewrite app_nil_r | done].
  - destruct (IH (dict_set acc k v) (dict_set_NoDup acc k v Hnd))
      as (Hnd' & Hsub & Hget).
    split_and!; [done | |].
    + intros x Hx. apply Hsub, elem_of_app in Hx as [Hx|Hx].
      * apply dict_set_keys_subseteq, elem_of_cons in Hx as [->|Hx].
        -- apply elem_of_app. right. by left.
        -- apply elem_of_app. by left.
      * apply elem_of_app. right. by right.
    + intros c. rewrite Hget. destruct (last_value pairs c); [done |].
      rewrite dict_get_set. by destruct (String.eqb k c).
Qed.

Lemma zip_keys_subseteq columns : ∀ row, (zip columns row).*1 ⊆ columns.
Proof.
  induction columns as [|c columns IH]; intros [|v row] x Hx; simpl in *;
    try by apply elem_of_nil in Hx.
  apply elem_of_cons in Hx as [->|Hx]; [by left |].
  right. by eapply IH.
Qed.

Lemma NoDup_subseteq_length (l k : list string) :
  NoDup l → l ⊆ k → (length l ≤ length k)%nat.
Proof.
  intros Hnd Hsub. apply submseteq_length, NoDup_submseteq; done.
Qed.

(** X10: whatever the column names, the normalised result has one mapping
    per database row, in order; the keys of each mapping are pairwise
    distinct column names, no more than there are columns, and a column name
    is sent to the cell of the last column that bears it. *)
Theorem rows_are_mappings_in_general columns rows :
  length (normalize columns rows) = length rows
  ∧ Forall2
      (λ row d,
         NoDup (keys d) ∧ keys d ⊆ columns
         ∧ (length (keys d) ≤ length columns)%nat
         ∧ ∀ c, dict_get d c = last_value (zip columns row) c)
      rows (normalize columns rows).
Proof.
  unfold normalize. split; [by rewrite length_fmap |].
  apply Forall2_fmap_r, Forall_Forall2_diag, Forall_forall.
  intros row _. unfold dict_of.
  destruct (fold_dict_set_spec (zip columns row) [] (NoDup_nil_2))
    as (Hnd & Hsub & Hget).
  assert (keys (fold_left (λ d kv, dict_set d kv.1 kv.2) (zip columns row) [])
          ⊆ columns) as Hsub'.
  { etrans; [exact Hsub |]. simpl. apply zip_keys_subseteq. }
  split_and!; [done | done | by apply NoDup_subseteq_length |].
  intros c. rewrite Hget. by destruct (last_value (zip columns row) c).
Qed.

(** ** Classification up to case and surrounding whitespace *)

Lemma isspace_lower c : PyText.isspace (PyText.lower_char c) = PyText.isspace c.
Proof. each_char c. Qed.

Lemma lower_char_idem c :
  PyText.lower_char (PyText.lower_char c) = PyText.lower_char c.
Proof. each_char c. Qed.

Lemma lower_space c : PyText.isspace c = true → PyText.lower_char c = c.
Proof. each_char c. Qed.

Lemma lower_idem s : PyText.lower (PyText.lower s) = PyText.lower s.
Proof. induction s as [|c s IH]; simpl; [done |]. by rewrite lower_char_idem, IH. Qed.

Lemma lstrip_lower s : PyText.lstrip (PyText.lower s) = PyText.lower (PyText.lstrip s).
Proof.
  induction s as [|c s IH]; simpl; [done |].
  rewrite isspace_lower. by destruct (PyText.isspace c).
Qed.

Lemma rstrip_lower s : PyText.rstrip (PyText.lower s) = PyText.lower (PyText.rstrip s).
Proof.
  induction s as [|c s IH]; simpl; [done |].
  rewrite IH, isspace_lower.
  destruct (PyText.rstrip s); simpl; [| done].
  by destruct (PyText.isspace c).
Qed.

Lemma lstrip_blank ws q : is_blank ws = true → PyText.lstrip (ws ++ q)%string = PyText.lstrip q.
Proof.
  induction ws as [|c ws IH]; simpl; [done |].
  intros [Hc Hws]%andb_true_iff. rewrite ?append_cons. simpl. rewrite Hc. by apply IH.
Qed.

Lemma rstrip_split s :
  ∃ ws, is_blank ws = true ∧ s = (PyText.rstrip s ++ ws)%string.
Proof.
  induction s as [|c s (ws & Hws & IH)]; simpl.
  - by exists "".
  - destruct (PyText.rstrip s) as [|c' r] eqn:Hr.
    + destruct (PyText.isspace c) eqn:Hc.
      * exists (String c s). split; [| done]. simpl. rewrite Hc. simpl.
        rewrite IH. done.
      * exists ws. split; [done |]. rewrite append_cons. by rewrite <- IH.
    + exists ws. split; [done |]. rewrite append_cons. by rewrite <- IH.
Qed.

Lemma prefix_ignores_blank_suffix p : ∀ s ws,
  no_blank p = true → is_blank ws = true →
  String.prefix p (PyText.lower (s ++ ws)%string) = String.prefix p (PyText.lower s).
Proof.
  induction p as [|a p IH]; intros s ws Hp Hws.
  - by destruct (PyText.lower (s ++ ws)%string), (PyText.lower s).
  - simpl in Hp. apply andb_true_iff in Hp as [Ha Hp].
    destruct s as [|c s].
    + destruct ws as [|c ws]; [done |]. simpl in *.
      apply andb_true_iff in Hws as [Hc Hws].
      destruct (ascii_dec a (PyText.lower_char c)) as [->|_]; [| done].
      rewrite lower_space in Ha by done. by rewrite Hc in Ha.
    + rewrite append_cons. simpl.
      destruct (ascii_dec a (PyText.lower_char c)); [| done]. by apply IH.
Qed.

Lemma is_select_lstrip q :
  is_select q = String.prefix "select" (PyText.lower (PyText.lstrip q)).
Proof.
  unfold is_select, PyText.startswith, PyText.strip.
  destruct (rstrip_split (PyText.lstrip q)) as (ws & Hws & Heq).
  rewrite Heq at 2. by rewrite prefix_ignores_blank_suffix.
Qed.

Lemma lstrip_app_blank q : ∀ ws, is_blank ws = true →
  String.prefix "select" (PyText.lower (PyText.lstrip (q ++ ws)%string))
  = String.prefix "select" (PyText.lower (PyText.lstrip q)).
Proof.
  induction q as [|c q IH]; intros ws Hws.
  - change ("" ++ ws)%string with ws.
    replace ws with (ws ++ "")%string at 1.
    + by rewrite lstrip_blank.
    + clear. induction ws as [|c ws IH]; [done |]. by rewrite append_cons, IH.
  - rewrite append_cons. simpl. destruct (PyText.isspace c); [by apply IH |].
    rewrite <- append_cons. by apply prefix_ignores_blank_suffix.
Qed.

(** X11: the classification of a text is not changed by whitespace before
    or after it, nor by the case of its letters. *)
Theorem classification_ignores_case_and_blank_margins ws1 q ws2 :
  is_blank ws1 = true → is_blank ws2 = true →
  is_select (ws1 ++ q ++ ws2)%string = is_select q
  ∧ is_select (PyText.lower q) = is_select q.
Proof.
  intros H1 H2. split.
  - rewrite !is_select_lstrip, lstrip_blank by done. by apply lstrip_app_blank.
  - rewrite !is_select_lstrip, lstrip_lower, lower_idem. done.
Qed.

(** ** Loading the configuration *)

(** X12: when DATABASE_URL is unset or empty the load stops with its own
    error, whatever REX_API_KEY is; when DATABASE_URL is there and
    REX_API_KEY is unset or empty the load stops with the error of
    REX_API_KEY; so a configuration that was loaded has both, not empty. *)
Theorem startup_checks_both_settings environ t0 :
  (py_not (environ !! "DATABASE_URL") = true →
   (startup environ t0).2
   = inl "DATABASE_URL environment variable is required")
  ∧ (py_not (environ !! "DATABASE_URL") = false →
     py_not (environ !! "REX_API_KEY") = true →
     (startup environ t0).2
     = inl "REX_API_KEY environment variable is required")
  ∧ (∀ t cfg, startup environ t0 = (t, inr cfg) →
       ∃ url key,
         environ !! "DATABASE_URL" = Some url ∧ url ≠ ""
         ∧ environ !! "REX_API_KEY" = Some key ∧ key ≠ "").
Proof.
  unfold_startup.
  destruct (environ !! "DATABASE_URL") as [[|c url]|]; simpl;
    destruct (environ !! "REX_API_KEY") as [[|c' key]|]; simpl;
    (split_and!; [done | done |]);
    try (intros t cfg [=]; fail).
  intros t cfg _. by eexists _, _.
Qed.

Lemma substring_all s : String.substring 0 (String.length s) s = s.
Proof. induction s as [|c s IH]; simpl; [done |]. by rewrite IH. Qed.

Lemma substring_drop p s :
  String.substring (String.length p)
    (String.length (p ++ s)%string - String.length p) (p ++ s)%string = s.
Proof.
  induction p as [|c p IH].
  - change ("" ++ s)%string with s. simpl String.length.
    rewrite Nat.sub_0_r. apply substring_all.
  - rewrite append_cons. exact IH.
Qed.

Lemma startup_success environ t0 t cfg :
  startup environ t0 = (t, inr cfg) →
  ∃ url key,
    environ !! "DATABASE_URL" = Some url
    ∧ environ !! "REX_API_KEY" = Some key
    ∧ cfg = Config
              (if PyText.startswith url "postgresql://"
               then ("postgresql+psycopg://"
                     ++ String.substring 13 (String.length url - 13) url)%string
               else url)
              key (default "100/hour" (environ !! "RATE_LIMIT")).
Proof.
  unfold_startup.
  destruct (environ !! "DATABASE_URL") as [url|];
    [| intros [=]].
  destruct (py_not (Some url)); [intros [=] |].
  destruct (environ !! "REX_API_KEY") as [key|];
    [| intros [=]].
  destruct (py_not (Some key)); [intros [=] |].
  intros [= _ <-]. by exists url, key.
Qed.

(** X13: once loaded, the secret is the value of REX_API_KEY as it stands;
    the rate limit is the value of RATE_LIMIT when set (an empty value
    included) and "100/hour" otherwise; a database URL with the scheme
    "postgresql://" gets the scheme "postgresql+psycopg://" and keeps the
    rest, and any other URL is kept as it is. *)
Theorem startup_configuration environ t0 t cfg url :
  startup environ t0 = (t, inr cfg) →
  environ !! "DATABASE_URL" = Some url →
  environ !! "REX_API_KEY" = Some (REX_API_KEY cfg)
  ∧ RATE_LIMIT cfg = default "100/hour" (environ !! "RATE_LIMIT")
  ∧ (∀ rest, url = ("postgresql://" ++ rest)%string →
       DATABASE_URL cfg = ("postgresql+psycopg://" ++ rest)%string)
  ∧ (PyText.startswith url "postgresql://" = false → DATABASE_URL cfg = url).
Proof.
  intros (url' & key & Hurl & Hkey & ->)%startup_success Hurl'.
  simplify_eq. simpl. split_and!; [done | done | |].
  - intros rest ->.
    replace (PyText.startswith ("postgresql://" ++ rest) "postgresql://")
      with true by (symmetry; apply prefix_app; by exists rest).
    f_equal. exact (substring_drop "postgresql://" rest).
  - by intros ->.
Qed.

(** ** The listener and the answer of the pooled route *)

(** X14: what the pooled route answers does not depend on the pool's
    listener: whether a new physical connection is opened, and whether
    setting its session read-only returns or raises, changes the log and
    the call on the driver's session, and nothing else of the request. *)
Theorem listener_outcome_is_invisible cfg w q k url new_physical answer :
  (run (sqlquery_alchemy cfg (with_session w new_physical answer) q k url)).2
  = (run (sqlquery_alchemy cfg w q k url)).2
  ∧ List.filter (λ ev, negb (is_session_or_log ev))
      (run (sqlquery_alchemy cfg (with_session w new_physical answer) q k url)).1
    = List.filter (λ ev, negb (is_session_or_log ev))
        (run (sqlquery_alchemy cfg w q k url)).1.
Proof.
  unfold_handlers. simpl.
  destruct new_physical, answer as [e'|];
    walk; simpl; done.
Qed.

(** ** A refused directive *)

Lemma handler_stops_at_refused_directive cfg w r e :
  w_directive w (route_backend (req_route r)) READ_ONLY = Some e →
  count is_statement (run (handler cfg w r)).1 = 0%nat
  ∧ count is_committed (run (handler cfg w r)).1 = 0%nat
  ∧ status_code (respond (run (handler cfg w r)).2) ≠ 200
  ∧ (count is_directive (run (handler cfg w r)).1 = 1%nat →
     count is_rollback (run (handler cfg w r)).1 = 1%nat
     ∧ status_code (respond (run (handler cfg w r)).2) = 500).
Proof.
  unfold handler, route_backend.
  destruct (req_route r) as [q k|q k|payload]; simpl; intros Hrefused.
  3: { unfold query_salesforce_data.
       generalize (default PyNone (payload !! "sqlquery"))
                  (default PyNone (payload !! "api_key")).
       intros sqlq key. unfold_handlers. rewrite Hrefused.
       walk; unfold count; simpl; split_and!; try done; intros [=]. }
  all: unfold_handlers; rewrite Hrefused;
    walk; unfold count; simpl; split_and!; try done; intros [=].
Qed.

(** X15: when [SET TRANSACTION READ ONLY] is refused on the backend of a
    route, the caller's statement is never sent and nothing is committed,
    and the answer is not a success; where the directive was issued, the
    transaction is rolled back and the answer is 500. *)
Theorem refused_directive_stops_the_request
    {L} (hit : L → string → string → string → bool * L) cfg w r l e :
  w_directive w (route_backend (req_route r)) READ_ONLY = Some e →
  count is_statement (serve hit cfg w r l).2.1 = 0%nat
  ∧ count is_committed (serve hit cfg w r l).2.1 = 0%nat
  ∧ status_code (serve hit cfg w r l).2.2 ≠ 200
  ∧ (count is_directive (serve hit cfg w r l).2.1 = 1%nat →
     count is_rollback (serve hit cfg w r l).2.1 = 1%nat
     ∧ status_code (serve hit cfg w r l).2.2 = 500).
Proof.
  intros Hrefused. rewrite serve_unfold. simpl.
  destruct (limiter_allows hit cfg r l); simpl.
  - by eapply handler_stops_at_refused_directive.
  - unfold count. simpl. split_and!; try done; intros [=].
Qed.

(** * The further properties at concrete requests *)

(** X5 at a request with the right key. *)
Lemma unauthorized_iff_key_differs_witness :
  status_code
    (serve window_hit cfg0 (refusing delete_refused) right_key_request ∅).2.2
  ≠ 401.
Proof.
  intros H401.
  destruct (unauthorized_iff_key_differs window_hit cfg0
              (refusing delete_refused) right_key_request ∅)
    as [Hdiffers _]; [by vm_compute |].
  specialize (Hdiffers H401). by vm_compute in Hdiffers.
Defined.

(** X6 at a payload that holds the key and no statement. *)
Lemma json_route_without_text_statement_witness :
  status_code
    (respond (run (query_salesforce_data cfg0 (answering None) key_only_payload)).2)
  = 500.
Proof.
  refine (proj1 (json_route_without_text_statement cfg0 (answering None)
                   key_only_payload _ _)); by vm_compute.
Defined.

(** X7 at a refused DELETE on the direct route. *)
Lemma what_each_route_logs_witness :
  ∃ received rest,
    (run (handler cfg0 (refusing delete_refused)
            (Request (GET_sqlquery_direct "delete from accounts" "s3cret")
               "/sqlquery_direct/" "10.0.0.7"))).1
    = EvLog DEBUG received
      :: EvLog DEBUG "SQL Query: delete from accounts" :: rest.
Proof.
  destruct (what_each_route_logs cfg0 (refusing delete_refused)
              (Request (GET_sqlquery_direct "delete from accounts" "s3cret")
                 "/sqlquery_direct/" "10.0.0.7")) as (_ & _ & Hfirst).
  exact (Hfirst eq_refl).
Defined.

(** X8 at two requests from one address, with wrong keys and refused
    statements on one side and right keys and answered statements on the
    other. *)
Lemma limiter_counts_regardless_of_outcome_witness :
  (serve_all window_hit cfg1
     [(refusing delete_refused,
       Request (GET_sqlquery_direct "delete from accounts" "wrong")
         "/sqlquery_direct/" "10.0.0.7");
      (refusing delete_refused,
       Request (GET_sqlquery_direct "delete from accounts" "wrong")
         "/sqlquery_direct/" "10.0.0.7")] ∅).1
  = (serve_all window_hit cfg1
       [(answering (Some one_x), right_key_request);
        (answering (Some one_x), right_key_request)] ∅).1.
Proof.
  apply limiter_counts_regardless_of_outcome. reflexivity.
Defined.

(** X9 at a result with two columns of the same name. *)
Lemma json_route_data_is_pooled_rows_witness :
  ∃ data,
    (run (sqlquery_alchemy cfg0 (answering (Some x_x)) select_twice
            (REX_API_KEY cfg0) "/")).2 = inr (BDicts data)
    ∧ (run (query_salesforce_data cfg0 (answering (Some x_x))
              (<["sqlquery" := PyStr select_twice]> key_only_payload))).2
      = inr (BStatusData "success" data)
    ∧ to_json (BStatusData "success" data)
      = JObject [("status", JString "success"); ("data", to_json (BDicts data))].
Proof.
  apply (json_route_data_is_pooled_rows cfg0 (answering (Some x_x))
           select_twice "/"
           (<["sqlquery" := PyStr select_twice]> key_only_payload) x_x);
    by vm_compute.
Defined.

(** X11 at a padded, mixed-case select. *)
Lemma classification_ignores_case_and_blank_margins_witness :
  is_select ("  " ++ "SeLeCt 1" ++ " ")%string = is_select "SeLeCt 1".
Proof.
  exact (proj1 (classification_ignores_case_and_blank_margins
                  "  " "SeLeCt 1" " " eq_refl eq_refl)).
Defined.

(** X12 at an environment with the key and no database URL. *)
Lemma startup_checks_both_settings_witness :
  (startup {["REX_API_KEY" := "s3cret"]} []).2
  = inl "DATABASE_URL environment variable is required".
Proof.
  refine (proj1 (startup_checks_both_settings {["REX_API_KEY" := "s3cret"]} [])
            _).
  by vm_compute.
Defined.

(** X13 at an environment with both settings. *)
Lemma startup_configuration_witness :
  DATABASE_URL cfg0 = "postgresql+psycopg://u:p@db:5432/app"
  ∧ RATE_LIMIT cfg0 = "100/hour".
Proof.
  destruct (startup_configuration environ0 []
              [EvLog INFO "Using rate limit: 100/hour"] cfg0
              "postgresql://u:p@db:5432/app")
    as (_ & Hrate & Hurl & _); [by vm_compute | by vm_compute |].
  split; [exact (Hurl "u:p@db:5432/app" eq_refl) | done].
Defined.

(** X15 at a request with the right key whose directive is refused. *)
Lemma refused_directive_stops_the_request_witness :
  count is_statement
    (serve window_hit cfg0 (refusing_directive delete_refused)
       right_key_request ∅).2.1 = 0%nat
  ∧ status_code
      (serve window_hit cfg0 (refusing_directive delete_refused)
         right_key_request ∅).2.2 = 500.
Proof.
  destruct (refused_directive_stops_the_request window_hit cfg0
              (refusing_directive delete_refused) right_key_request ∅
              delete_refused)
    as (Hnone & _ & _ & Hissued); [by vm_compute |].
  split; [exact Hnone |].
  apply Hissued. by vm_compute.
Defined.
